(** * Batch media pipeline of batch_extract_from_urls.py: model and properties

    The development embeds [safe_slug], [read_urls], [detect_media_type],
    [download_file], [process_url] and [main] of
    [src/batch_extract_from_urls.py].

    - Python [str] values are Rocq strings; the character operations
      ([lower], [strip], [isalnum]) are the ASCII restriction of the Python
      ones, other characters are left unchanged / not classified.
    - A row of [csv.DictReader] is a list of column names with their cells,
      in file order; parsing the CSV text is not modelled, [read_urls] starts
      from the parsed rows.
    - The network, the image and video decoders and the embedding model are
      an environment of oracles ([Env]). Every call that the source places in
      a [try] block may return or raise, as the environment decides: requests,
      opening a file for writing, removing a file, decoding, embedding. Calls
      that the source leaves unguarded ([ensure_dir], the creation of the
      temporary directory, string and path operations) are total.
    - The persistent file store is a finite map from paths to contents; the
      scoped temporary directory of [process_url] is a second, local map that
      starts empty and is dropped when the row ends. An opened file is written
      completely.
    - Effects are threaded by a state-and-exception monad over [World]; every
      externally visible action is also appended to a chronological trace.
      Elapsed time is not modelled. *)

From Stdlib Require Import ZArith Ascii String List Bool Lia DecimalString DecimalN.
From stdpp Require Import base option strings gmap list.

Local Open Scope string_scope.
Local Open Scope list_scope.
Local Open Scope Z_scope.

(** ** Python string operations (ASCII restriction) *)

Module PyStr.

Definition code (c : ascii) : N := N_of_ascii c.

Definition between (lo hi : N) (c : ascii) : bool :=
  (N.leb lo (code c) && N.leb (code c) hi)%bool.

Definition is_upper (c : ascii) : bool := between 65 90 c.
Definition is_lower (c : ascii) : bool := between 97 122 c.
Definition is_digit (c : ascii) : bool := between 48 57 c.

(** [ch.isalnum()] *)
Definition isalnum (c : ascii) : bool :=
  (is_upper c || is_lower c || is_digit c)%bool.

(** Characters removed by [str.strip()]: tab, LF, VT, FF, CR, the four
    separators 0x1c-0x1f and space. *)
Definition isspace (c : ascii) : bool :=
  (between 9 13 c || between 28 32 c)%bool.

Definition lower_char (c : ascii) : ascii :=
  if is_upper c then ascii_of_N (code c + 32) else c.

(** [s.lower()] *)
Fixpoint lower (s : string) : string :=
  match s with
  | EmptyString => EmptyString
  | String c r => String (lower_char c) (lower r)
  end.

Fixpoint lstrip (s : string) : string :=
  match s with
  | EmptyString => EmptyString
  | String c r => if isspace c then lstrip r else s
  end.

(** Removes trailing white space; [rstrip] of an all-blank string is empty. *)
Fixpoint rstrip (s : string) : string :=
  match s with
  | EmptyString => EmptyString
  | String c r =>
      match rstrip r with
      | EmptyString => if isspace c then EmptyString else String c EmptyString
      | r' => String c r'
      end
  end.

(** [s.strip()] *)
Definition strip (s : string) : string := rstrip (lstrip s).

(** [s.startswith(p)] *)
Fixpoint startswith (p s : string) : bool :=
  match p, s with
  | EmptyString, _ => true
  | String _ _, EmptyString => false
  | String a p', String b s' => if Ascii.eqb a b then startswith p' s' else false
  end.

(** [sub in s] *)
Fixpoint contains (sub s : string) : bool :=
  if startswith sub s then true
  else match s with
       | EmptyString => false
       | String _ r => contains sub r
       end.

(** [s.split(c)[0]] for a one-character separator. *)
Fixpoint before (c : ascii) (s : string) : string :=
  match s with
  | EmptyString => EmptyString
  | String a r => if Ascii.eqb a c then EmptyString else String a (before c r)
  end.

(** [any(x in s for x in subs)] *)
Definition any_in (subs : list string) (s : string) : bool :=
  existsb (fun x => contains x s) subs.

(** Truth value of a string: non-empty. *)
Definition truthy (s : string) : bool :=
  match s with EmptyString => false | _ => true end.

(** [os.path.basename(p)]: what follows the last slash. *)
Fixpoint basename (p : string) : string :=
  match p with
  | EmptyString => EmptyString
  | String c r =>
      if contains "/" r then basename r
      else if Ascii.eqb c "/" then r else p
  end.

Fixpoint endswith_char (c : ascii) (s : string) : bool :=
  match s with
  | EmptyString => false
  | String a EmptyString => Ascii.eqb a c
  | String _ r => endswith_char c r
  end.

(** [os.path.join(a, b)] on POSIX. *)
Definition path_join (a b : string) : string :=
  if startswith "/" b then b
  else if negb (truthy a) then b
  else if endswith_char "/" a then a +:+ b
  else a +:+ "/" +:+ b.

Fixpoint zeros (n : nat) : string :=
  match n with O => EmptyString | S k => String "0" (zeros k) end.

Definition digits (n : N) : string := NilZero.string_of_uint (N.to_uint n).

(** [f"{i:04d}"]: sign-aware zero padding to width four. *)
Definition format_04d (i : Z) : string :=
  match i with
  | Zneg p =>
      let d := digits (Npos p) in
      "-" +:+ zeros (3 - String.length d) +:+ d
  | _ =>
      let d := digits (Z.to_N i) in
      zeros (4 - String.length d) +:+ d
  end.

End PyStr.

Import PyStr.

(** ** Outcomes, environment, world *)

(** A call either returns a value or raises an exception; only the text
    [str(e)] of an exception is ever observed by the program. *)
Inductive Outcome (A : Type) : Type :=
| Ok (a : A)
| Raise (msg : string).
Arguments Ok {A} a.
Arguments Raise {A} msg.

(** A byte stream as the program reads it: the chunks delivered, and the
    exception (if any) raised once they are exhausted. *)
Record Stream : Type := {
  chunks : list string;
  stream_error : option string
}.

(** A response of the primary transport whose status check has passed. *)
Record Response : Type := {
  resp_content_type : string;   (* r.headers.get('Content-Type', '') *)
  resp_body : Stream            (* r.iter_content(chunk_size=8192) *)
}.

(** What the OpenCV calls of the video branch amount to. *)
Inductive VideoResult : Type :=
| VideoRaise (msg : string)     (* any call of the block raised *)
| VideoNotOpened                (* cap.isOpened() is false *)
| VideoNoFrame                  (* cap.read() gave no frame *)
| VideoFrame (png : string).    (* the first frame, saved as an image *)

(** A CSV row as [csv.DictReader] yields it: column names with their cells,
    in file order; a cell missing from a short row is [None]. Column names
    are distinct, as the keys of a dict are. *)
Definition Row : Type := list (string * option string).

(** The environment of one run: what each guarded call answers. A question
    asked twice in the same run gets the same answer. *)
Record Env : Type := {
  requests_head : string -> Outcome string;   (* import requests; requests.head(url).headers.get('Content-Type', '') *)
  requests_get : string -> Outcome Response;  (* import requests; requests.get(url, stream=True) and raise_for_status() *)
  urlopen : string -> Outcome Stream;         (* urllib.request.urlopen(url) *)
  open_error : string -> option string;       (* open(path, 'w' or 'wb') raising *)
  remove_error : string -> option string;     (* os.remove(path) raising *)
  image_open : string -> Outcome string;      (* Image.open, convert and save as PNG *)
  video_capture : string -> VideoResult;      (* cv2.VideoCapture ... img.save *)
  clip_embed : string -> Outcome string;      (* the CLIP model and numpy's serialisation *)
  tmpdir : string;                            (* name given by tempfile.TemporaryDirectory() *)
  csv_rows : string -> option (list Row)      (* rows of the CSV file at a path, if it exists *)
}.

(** The three network events record that the program attempts the call:
    control reaches lines 65-66, 83-84 or 110-111. The attempt may raise
    before anything is sent (when [import requests] fails), so the events
    bound the requests sent from above. *)
Inductive Event : Type :=
| EvMkdir (path : string)
| EvRemove (path : string)
| EvOpen (path : string)                 (* open for writing, persistent store *)
| EvHead (url : string)                  (* HEAD probe attempted *)
| EvGet (url : string)                   (* GET attempted *)
| EvUrlopen (url : string)               (* urlopen attempted *)
| EvStderr (msg : string)
| EvStart (first past_last total : Z)
| EvRowFail (i : Z) (job_id err : string)
| EvRowOk (i : Z) (job_id : string) (num_frames : nat)
| EvDone (ok failed : nat).

Record World : Type := {
  files : gmap string string;   (* persistent store: path to content *)
  dirs : gset string;           (* directories created *)
  temp : gmap string string;    (* the scoped temporary directory *)
  trace : list Event            (* what happened so far, oldest first *)
}.

Definition set_files (f : gmap string string -> gmap string string) (w : World) : World :=
  {| files := f (files w); dirs := dirs w; temp := temp w; trace := trace w |}.
Definition set_dirs (f : gset string -> gset string) (w : World) : World :=
  {| files := files w; dirs := f (dirs w); temp := temp w; trace := trace w |}.
Definition set_temp (f : gmap string string -> gmap string string) (w : World) : World :=
  {| files := files w; dirs := dirs w; temp := f (temp w); trace := trace w |}.
Definition log (ev : Event) (w : World) : World :=
  {| files := files w; dirs := dirs w; temp := temp w; trace := trace w ++ [ev] |}.

(** ** The state-and-exception monad *)

Definition M (A : Type) : Type := World -> Outcome A * World.

Definition ret {A} (a : A) : M A := fun w => (Ok a, w).
Definition raise {A} (msg : string) : M A := fun w => (Raise msg, w).
Definition bind {A B} (m : M A) (k : A -> M B) : M B :=
  fun w => match m w with
           | (Ok a, w') => k a w'
           | (Raise e, w') => (Raise e, w')
           end.
(** [try: m except Exception as e: h e]; effects of [m] before the exception stay. *)
Definition try_except {A} (m : M A) (h : string -> M A) : M A :=
  fun w => match m w with
           | (Ok a, w') => (Ok a, w')
           | (Raise e, w') => h e w'
           end.
Definition get {A} (f : World -> A) : M A := fun w => (Ok (f w), w).
Definition update (f : World -> World) : M unit := fun w => (Ok tt, f w).
Definition emit (ev : Event) : M unit := update (log ev).
(** [try: m except Exception: pass] *)
Definition swallow (m : M unit) : M unit := try_except m (fun _ => ret tt).

Notation "x <- c1 ;; c2" := (bind c1 (fun x => c2))
  (at level 100, c1 at next level, right associativity).
Notation "c1 ;; c2" := (bind c1 (fun _ => c2))
  (at level 100, right associativity).

Definition value {A} (r : Outcome A * World) : Outcome A := fst r.
Definition world {A} (r : Outcome A * World) : World := snd r.

(** ** Primitive actions *)

(** Modelled from the spec: [ensure_dir] of the [app] module is not part of the
    sources; the Job Store's [ensure_job] is create-if-absent. *)
Definition ensure_dir (path : string) : M unit :=
  emit (EvMkdir path) ;; update (set_dirs (fun d => {[path]} ∪ d)).

(** [os.path.exists(path)] for an artifact path. *)
Definition path_exists (path : string) : M bool :=
  get (fun w => bool_decide (is_Some (files w !! path))).

(** [os.remove(path)] *)
Definition os_remove (env : Env) (path : string) : M unit :=
  emit (EvRemove path) ;;
  match remove_error env path with
  | Some e => raise e
  | None => update (set_files (delete path))
  end.

(** [with open(path, "w") as f: f.write(content)]: the open may be refused;
    an opened file is written completely. *)
Definition write_file (env : Env) (path content : string) : M unit :=
  emit (EvOpen path) ;;
  match open_error env path with
  | Some e => raise e
  | None => update (set_files (insert path content))
  end.

Definition requests_head_content_type (env : Env) (url : string) : M string :=
  emit (EvHead url) ;;
  match requests_head env url with
  | Ok ct => ret ct
  | Raise e => raise e
  end.

Definition requests_get_checked (env : Env) (url : string) : M Response :=
  emit (EvGet url) ;;
  match requests_get env url with
  | Ok r => ret r
  | Raise e => raise e
  end.

Definition urlopen_stream (env : Env) (url : string) : M Stream :=
  emit (EvUrlopen url) ;;
  match urlopen env url with
  | Ok s => ret s
  | Raise e => raise e
  end.

(** [open(dest_path, "wb")] in the temporary directory: truncates. *)
Definition temp_open (env : Env) (path : string) : M unit :=
  match open_error env path with
  | Some e => raise e
  | None => update (set_temp (insert path ""))
  end.

Definition temp_append (path chunk : string) : M unit :=
  update (set_temp (fun t => <[path := default "" (t !! path) +:+ chunk]> t)).

(** [for chunk in r.iter_content(...): if chunk: f.write(chunk)] *)
Fixpoint write_chunks (path : string) (cs : list string) : M unit :=
  match cs with
  | [] => ret tt
  | c :: cs' =>
      (if truthy c then temp_append path c else ret tt) ;;
      write_chunks path cs'
  end.

(** [while True: chunk = r.read(8192); if not chunk: break; f.write(chunk)]:
    an empty chunk, or the end of the stream, leaves the loop. *)
Fixpoint read_loop (path : string) (cs : list string) (err : option string) : M unit :=
  match cs with
  | [] => match err with Some e => raise e | None => ret tt end
  | c :: cs' =>
      if truthy c then temp_append path c ;; read_loop path cs' err
      else ret tt
  end.

(** The exception that ends [iter_content], if the stream has one. *)
Definition stream_end (s : Stream) : M unit :=
  match stream_error s with
  | Some e => raise e
  | None => ret tt
  end.

(** ** The program *)

Definition nl : string := String (ascii_of_nat 10) EmptyString.

(** [x or ""] for an optional string. *)
Definition or_empty (o : option string) : string := default "" o.

(** [str(value)] for a cell. *)
Definition py_str (o : option string) : string := default "None" o.

(** [ch in " .-_()[]{}"] *)
Definition slug_punct (c : ascii) : bool := contains (String c EmptyString) " .-_()[]{}".

Fixpoint slug_chars (s : string) : string :=
  match s with
  | EmptyString => EmptyString
  | String c r =>
      String (if (isalnum c || slug_punct c)%bool then c else "_"%char) (slug_chars r)
  end.

(** Lines 15-24. *)
Definition safe_slug (text : string) : string :=
  let s := strip text in
  let slug := strip (slug_chars s) in
  if truthy slug then slug else "item".

(** [row.get(column)] and [column in row] *)
Fixpoint row_get (column : string) (row : Row) : option (option string) :=
  match row with
  | [] => None
  | (k, v) :: rest => if String.eqb k column then Some v else row_get column rest
  end.

(** [column and column in row] *)
Definition column_in_row (column : option string) (row : Row) : bool :=
  match column with
  | Some c => (truthy c && bool_decide (is_Some (row_get c row)))%bool
  | None => false
  end.

(** [list(row.values())[0] if row else ""] *)
Definition first_col (row : Row) : option string :=
  match row with
  | [] => Some ""
  | (_, v) :: _ => v
  end.

(** The URL cell of a row (lines 34-40 and 127-132): the named column when it
    is given and present, else the first column; blank-stripped. *)
Definition row_url (column : option string) (row : Row) : string :=
  if column_in_row column row
  then strip (or_empty (default None (row_get (or_empty column) row)))
  else strip (or_empty (first_col row)).

(** Lines 27-44, on the rows already parsed by [csv.DictReader]. *)
Definition read_urls (table : list Row) (column : option string) : list Row :=
  List.filter (fun row => truthy (row_url column row)) table.

Definition image_exts : list string :=
  [".jpg"; ".jpeg"; ".png"; ".gif"; ".bmp"; ".webp"; ".svg"; ".tiff"; ".tif"].
Definition video_exts : list string :=
  [".mp4"; ".mov"; ".avi"; ".mkv"; ".webm"; ".flv"; ".wmv"; ".m4v"; ".3gp"].

(** [url_lower.split('?')[0].split('#')[0]] *)
Definition path_part (url : string) : string :=
  before "#" (before "?" (lower url)).

(** The type named by a Content-Type value (lines 68-71 and 89-92). *)
Definition content_type_media (content_type : string) : option string :=
  if any_in ["image/"; "image"] content_type then Some "image"
  else if any_in ["video/"; "video"] content_type then Some "video"
  else None.

(** Lines 47-76. *)
Definition detect_media_type (env : Env) (url : string) : M string :=
  let path_part := path_part url in
  if any_in image_exts path_part then ret "image"
  else if any_in video_exts path_part then ret "video"
  else
    probed <- try_except
      (content_type <- requests_head_content_type env url ;;
       ret (content_type_media (lower content_type)))
      (fun _ => ret None) ;;
    match probed with
    | Some t => ret t
    | None => ret "video"
    end.

(** Lines 82-106: the [try] statement of [download_file]. Both its body and
    its handler end in [return], so control never reaches the statements that
    follow it in the source. *)
Definition download_file (env : Env) (url dest_path : string) : M (string * option string) :=
  try_except
    (r <- requests_get_checked env url ;;
     let content_type := lower (resp_content_type r) in
     media_type <- match content_type_media content_type with
                   | Some t => ret t
                   | None => detect_media_type env url
                   end ;;
     temp_open env dest_path ;;
     write_chunks dest_path (chunks (resp_body r)) ;;
     stream_end (resp_body r) ;;
     ret (media_type, None))
    (fun e =>
       let error_msg := e in
       media_type <- detect_media_type env url ;;
       ret (media_type, Some error_msg)).

(** Lines 108-121: the urllib block that follows the [try] statement of
    [download_file] in the source. No path of [download_file] runs it. *)
Definition urllib_fallback (env : Env) (url dest_path : string) : M (string * option string) :=
  try_except
    (r <- urlopen_stream env url ;;
     temp_open env dest_path ;;
     read_loop dest_path (chunks r) (stream_error r) ;;
     media_type <- detect_media_type env url ;;
     ret (media_type, None))
    (fun e =>
       media_type <- detect_media_type env url ;;
       ret (media_type, Some ("Download failed: " +:+ e))).

(** [f"url_{index:04d}"] *)
Definition job_id_of (index : Z) : string := "url_" +:+ format_04d index.

(** One cleanup block of lines 146-165:
    [try: if os.path.exists(p): os.remove(p) except Exception: pass]. *)
Definition remove_quietly (env : Env) (path : string) : M unit :=
  swallow (present <- path_exists path ;;
           if present then os_remove env path else ret tt).

(** Lines 145-165, the body of [if overwrite:]. *)
Definition clear_artifacts (env : Env)
    (first_embed_path url_txt_path metadata_txt_path media_type_path : string) : M unit :=
  remove_quietly env first_embed_path ;;
  remove_quietly env url_txt_path ;;
  remove_quietly env metadata_txt_path ;;
  remove_quietly env media_type_path.

(** What lines 177-179 write: one [key=value] line per column other than
    the URL column. *)
Fixpoint metadata_text (url_column : option string) (row : Row) : string :=
  match row with
  | [] => ""
  | (key, v) :: rest =>
      (if bool_decide (Some key = url_column) then ""
       else key +:+ "=" +:+ py_str v +:+ nl)
      +:+ metadata_text url_column rest
  end.

(** Lines 186-194. *)
Definition default_ext (url : string) : string :=
  let url_lower := lower url in
  if any_in [".jpg"; ".jpeg"] url_lower then ".jpg"
  else if contains ".png" url_lower then ".png"
  else if any_in [".gif"; ".webp"; ".bmp"] url_lower then ".gif"
  else ".mp4".

(** Line 196. *)
Definition tmp_path_of (tdir url : string) : string :=
  let name := safe_slug (basename url) in
  path_join tdir (if truthy name then name else "media" +:+ default_ext url).

Definition no_such_file (path : string) : string :=
  "[Errno 2] No such file or directory: '" +:+ path +:+ "'".

(** Lines 215-219, the body of the image [try]. *)
Definition extract_image (env : Env) (tmp_path temp_frame_path : string) : M unit :=
  content <- get (fun w => temp w !! tmp_path) ;;
  match content with
  | None => raise (no_such_file tmp_path)
  | Some bytes =>
      match image_open env bytes with
      | Ok png => update (set_temp (insert temp_frame_path png))
      | Raise e => raise e
      end
  end.

(** Lines 225-237, the body of the video [try]; [Some reason] is a [return]
    from inside it. *)
Definition extract_video (env : Env) (tmp_path temp_frame_path : string) : M (option string) :=
  content <- get (fun w => temp w !! tmp_path) ;;
  match content with
  | None => ret (Some "video_open_error")
  | Some bytes =>
      match video_capture env bytes with
      | VideoRaise e => raise e
      | VideoNotOpened => ret (Some "video_open_error")
      | VideoNoFrame => ret (Some "read_first_frame_error")
      | VideoFrame png => update (set_temp (insert temp_frame_path png)) ;; ret None
      end
  end.

(** Modelled from the spec: [embed_image_clip_to_npy] of the [app] module is
    not part of the sources; the Embedder Gateway passes the still frame to the
    provider and persists the resulting vector at [out_path], and any provider
    exception reaches the caller. *)
Definition embed_image_clip_to_npy (env : Env) (image_path out_path : string) : M unit :=
  content <- get (fun w => temp w !! image_path) ;;
  match content with
  | None => raise (no_such_file image_path)
  | Some png =>
      match clip_embed env png with
      | Ok vector => write_file env out_path vector
      | Raise e => raise e
      end
  end.

(** [with tempfile.TemporaryDirectory() as tdir:] a fresh, empty directory,
    removed with its content however the block is left. *)
Definition with_tempdir {A} (env : Env) (body : string -> M A) : M A :=
  fun w =>
    let r := body (tmpdir env) (set_temp (fun _ => ∅) w) in
    (fst r, set_temp (fun _ => ∅) (snd r)).

Definition Result : Type := string * nat * option string.

(** Lines 211-239: the still frame; [Some reason] is a [return] with that
    failure reason. *)
Definition extract_frame (env : Env) (media_type tmp_path temp_frame_path : string)
  : M (option string) :=
  if String.eqb media_type "image"
  then try_except (extract_image env tmp_path temp_frame_path ;; ret None)
                  (fun e => ret (Some ("image_process_error: " +:+ e)))
  else try_except (extract_video env tmp_path temp_frame_path)
                  (fun e => ret (Some ("first_frame_error: " +:+ e))).

(** Lines 202-247: what follows a download that reported no error. *)
Definition persist_and_embed (env : Env)
    (job_id media_type media_type_path first_embed_path tmp_path temp_frame_path : string)
  : M Result :=
  swallow (write_file env media_type_path media_type) ;;
  stopped <- extract_frame env media_type tmp_path temp_frame_path ;;
  match stopped with
  | Some reason => ret (job_id, 0%nat, Some reason)
  | None =>
      try_except
        (embed_image_clip_to_npy env temp_frame_path first_embed_path ;;
         ret (job_id, 1%nat, None))
        (fun e => ret (job_id, 1%nat, Some ("embed_error: " +:+ e)))
  end.

(** Lines 185-247, the body of the [with] block of [process_url]. *)
Definition fetch_and_embed (env : Env) (url job_id media_type_path first_embed_path tdir : string)
  : M Result :=
  let tmp_path := tmp_path_of tdir url in
  fetched <- download_file env url tmp_path ;;
  let media_type := fst fetched in
  let download_error := snd fetched in
  if truthy (or_empty download_error)
  then ret (job_id, 0%nat, Some ("download_error: " +:+ or_empty download_error))
  else persist_and_embed env job_id media_type media_type_path first_embed_path
         tmp_path (path_join tdir "first_frame.png").

(** Lines 124-247. *)
Definition process_url (env : Env) (index : Z) (row_data : Row) (url_column : option string)
    (out_root : string) (overwrite : bool) : M Result :=
  let url := row_url url_column row_data in
  if negb (truthy url) then ret (job_id_of index, 0%nat, Some "no_url_in_row")
  else
    let job_id := job_id_of index in
    let job_dir := path_join out_root job_id in
    let first_embed_path := path_join job_dir "first_frame.npy" in
    let url_txt_path := path_join job_dir "url.txt" in
    let metadata_txt_path := path_join job_dir "metadata.txt" in
    let media_type_path := path_join job_dir "media_type.txt" in
    ensure_dir job_dir ;;
    (if overwrite
     then clear_artifacts env first_embed_path url_txt_path metadata_txt_path media_type_path
     else ret tt) ;;
    swallow (write_file env url_txt_path url) ;;
    swallow (write_file env metadata_txt_path (metadata_text url_column row_data)) ;;
    with_tempdir env (fetch_and_embed env url job_id media_type_path first_embed_path).

Record Args : Type := {
  arg_input : string;
  arg_column : string;
  arg_out_dir : string;
  arg_start : Z;
  arg_end : option Z;
  arg_overwrite : bool
}.

(** Lines 281-289, [for i in range(start, end):] over the remaining indices. *)
Fixpoint run_rows (env : Env) (args : Args) (rows : list Row) (indices : list Z)
    (successes failures : nat) : M (nat * nat) :=
  match indices with
  | [] => ret (successes, failures)
  | i :: rest =>
      match rows !! Z.to_nat i with
      | None => raise "list index out of range"
      | Some row_data =>
          r <- process_url env i row_data (Some (arg_column args)) (arg_out_dir args)
                 (arg_overwrite args) ;;
          let '(job_id, num_frames, err) := r in
          if truthy (or_empty err)
          then emit (EvRowFail i job_id (or_empty err)) ;;
               run_rows env args rows rest successes (S failures)
          else emit (EvRowOk i job_id num_frames) ;;
               run_rows env args rows rest (S successes) failures
      end
  end.

(** Lines 268-271. *)
Definition resolve_end (requested : option Z) (total : Z) : Z :=
  match requested with
  | None => total
  | Some e => if e >? total then total else e
  end.

(** Lines 250-292; the value is the exit status of the process. *)
Definition main (env : Env) (args : Args) : M Z :=
  match csv_rows env (arg_input args) with
  | None =>
      emit (EvStderr ("Error: Input file '" +:+ arg_input args +:+ "' not found.")) ;;
      emit (EvStderr "Please specify a valid CSV file with --input option.") ;;
      ret 1
  | Some table =>
      ensure_dir (arg_out_dir args) ;;
      let rows := read_urls table (Some (arg_column args)) in
      let end_ := resolve_end (arg_end args) (Z.of_nat (length rows)) in
      let start := Z.max 0 (arg_start args) in
      if start >=? end_
      then emit (EvStderr "No URLs to process in the given range.") ;; ret 1
      else
        emit (EvStart start end_ (Z.of_nat (length rows))) ;;
        counts <- run_rows env args rows (seqZ start (end_ - start)) 0 0 ;;
        emit (EvDone (fst counts) (snd counts)) ;;
        ret 0
  end.

(** ** Derived notions used in the statements *)

Definition empty_world : World :=
  {| files := ∅; dirs := ∅; temp := ∅; trace := [] |}.

(** The media type [detect_media_type] returns for a URL. *)
Definition classified (env : Env) (url : string) : string :=
  match value (detect_media_type env url empty_world) with
  | Ok t => t
  | Raise _ => "video"
  end.

(** The artifact paths of a job (lines 137-143). *)
Definition job_dir_of (out_root : string) (index : Z) : string :=
  path_join out_root (job_id_of index).
Definition first_embed_path_of (out_root : string) (index : Z) : string :=
  path_join (job_dir_of out_root index) "first_frame.npy".
Definition url_txt_path_of (out_root : string) (index : Z) : string :=
  path_join (job_dir_of out_root index) "url.txt".
Definition metadata_txt_path_of (out_root : string) (index : Z) : string :=
  path_join (job_dir_of out_root index) "metadata.txt".
Definition media_type_path_of (out_root : string) (index : Z) : string :=
  path_join (job_dir_of out_root index) "media_type.txt".

Definition artifact_paths (out_root : string) (index : Z) : list string :=
  [first_embed_path_of out_root index; url_txt_path_of out_root index;
   metadata_txt_path_of out_root index; media_type_path_of out_root index].

Definition is_network (ev : Event) : bool :=
  match ev with
  | EvHead _ | EvGet _ | EvUrlopen _ => true
  | _ => false
  end.

Definition is_remove (ev : Event) : bool :=
  match ev with
  | EvRemove _ => true
  | _ => false
  end.

Definition is_open (ev : Event) : bool :=
  match ev with
  | EvOpen _ => true
  | _ => false
  end.

(** The part of [os.path.join(d, name)] that depends on [d] only. *)
Definition dir_prefix (d : string) : string :=
  if negb (truthy d) then ""
  else if endswith_char "/" d then d else d +:+ "/".

(** The value of [download_file] in closed form (lemma [download_file_run]). *)
Definition download_value (env : Env) (url dest_path : string) : string * option string :=
  match requests_get env url with
  | Raise e => (classified env url, Some e)
  | Ok r =>
      match open_error env dest_path with
      | Some e => (classified env url, Some e)
      | None =>
          match stream_error (resp_body r) with
          | Some e => (classified env url, Some e)
          | None =>
              (default (classified env url)
                 (content_type_media (lower (resp_content_type r))), None)
          end
      end
  end.

(** *** Phases of [process_url] *)

(** The world after one cleanup block. *)
Definition removed (env : Env) (path : string) (w : World) : World :=
  world (remove_quietly env path w).

(** The world after one best-effort write. *)
Definition written (env : Env) (path content : string) (w : World) : World :=
  world (swallow (write_file env path content) w).

(** The world in which the provenance writes start: the job directory
    exists and, under [overwrite], the cleanup blocks have run. *)
Definition cleaned (env : Env) (out_root : string) (index : Z) (overwrite : bool)
    (w : World) : World :=
  let w1 := world (ensure_dir (job_dir_of out_root index) w) in
  if overwrite
  then removed env (media_type_path_of out_root index)
         (removed env (metadata_txt_path_of out_root index)
            (removed env (url_txt_path_of out_root index)
               (removed env (first_embed_path_of out_root index) w1)))
  else w1.

(** The world in which the download starts. *)
Definition provenanced (env : Env) (out_root : string) (index : Z) (overwrite : bool)
    (url_column : option string) (row : Row) (w : World) : World :=
  written env (metadata_txt_path_of out_root index) (metadata_text url_column row)
    (written env (url_txt_path_of out_root index) (row_url url_column row)
       (cleaned env out_root index overwrite w)).

(** *** Substrings *)

(** [sub] occurs in [s]. *)
Definition has_substring (sub s : string) : Prop :=
  exists pre post, s = pre +:+ sub +:+ post.

(** The test of lines 56-61: one of the extensions of [exts] occurs in the
    lower-cased URL text before its query and fragment. That text still
    holds the scheme and the host name. *)
Definition has_extension (exts : list string) (url : string) : Prop :=
  exists ext, ext ∈ exts /\ has_substring ext (path_part url).

(** *** The path of a URL *)

(** The suffix of [s] that starts at its first [c]; empty when [c] does not
    occur in [s]. *)
Fixpoint from_char (c : ascii) (s : string) : string :=
  match s with
  | EmptyString => EmptyString
  | String a r => if Ascii.eqb a c then s else from_char c r
  end.

Definition skip3 (s : string) : string :=
  match s with
  | String _ (String _ (String _ r)) => r
  | _ => EmptyString
  end.

(** A URL text without query and fragment, cut behind its host: the host
    follows the first [://] and ends before the next slash. *)
Fixpoint split_origin (s : string) : string * string :=
  if startswith "://" s
  then ("://" +:+ before "/" (skip3 s), from_char "/" (skip3 s))
  else match s with
       | EmptyString => (EmptyString, EmptyString)
       | String a r => (String a (fst (split_origin r)), snd (split_origin r))
       end.

(** Scheme and host of a URL, lower-cased; empty for a URL without [://]. *)
Definition url_origin (url : string) : string :=
  if contains "://" (path_part url) then fst (split_origin (path_part url)) else "".

(** The path of a URL as the claim on classification speaks of it:
    lower-cased, without scheme and host, without query and fragment. A URL
    without [://] is all path. *)
Definition url_path (url : string) : string :=
  if contains "://" (path_part url) then snd (split_origin (path_part url))
  else path_part url.

(** The path of the URL contains one of the extensions of [exts]. *)
Definition path_has_extension (exts : list string) (url : string) : Prop :=
  exists ext, ext ∈ exts /\ has_substring ext (url_path url).

(** Scheme and host of the URL contain one of the extensions of [exts]. *)
Definition origin_has_extension (exts : list string) (url : string) : Prop :=
  exists ext, ext ∈ exts /\ has_substring ext (url_origin url).

(** *** Events of the batch loop *)

(** Events printed by [main] itself. *)
Definition is_report (ev : Event) : bool :=
  match ev with
  | EvStderr _ | EvStart _ _ _ | EvRowFail _ _ _ | EvRowOk _ _ _ | EvDone _ _ => true
  | _ => false
  end.

Definition is_row_ok (ev : Event) : bool :=
  match ev with
  | EvRowOk _ _ _ => true
  | _ => false
  end.

Definition is_row_fail (ev : Event) : bool :=
  match ev with
  | EvRowFail _ _ _ => true
  | _ => false
  end.

Definition count (f : Event -> bool) (evs : list Event) : nat :=
  length (List.filter f evs).

(** The line printed for the result of row [i] (lines 284-289). *)
Definition report_line (i : Z) (res : Result) : Event :=
  let '(job_id, num_frames, err) := res in
  if truthy (or_empty err) then EvRowFail i job_id (or_empty err)
  else EvRowOk i job_id num_frames.

(** One round of the loop as a change of the world: [process_url] on row
    [i], then its line. *)
Definition row_step (env : Env) (args : Args) (rows : list Row) (w : World) (i : Z) : World :=
  match rows !! Z.to_nat i with
  | None => w
  | Some row =>
      let r := process_url env i row (Some (arg_column args)) (arg_out_dir args)
                 (arg_overwrite args) w in
      match value r with
      | Ok res => log (report_line i res) (world r)
      | Raise _ => world r
      end
  end.

(** *** Uniformity *)

(** The world with the given temporary directory and nothing else. *)
Definition canon (t : gmap string string) : World :=
  {| files := ∅; dirs := ∅; temp := t; trace := [] |}.

(** The effects recorded in [w0] laid over the world [w]. *)
Definition overlay (w0 w : World) : World :=
  {| files := files w0 ∪ files w; dirs := dirs w0 ∪ dirs w;
     temp := temp w0; trace := trace w ++ trace w0 |}.

(** A computation is uniform when its value, and the files, directories and
    events it adds, are those of its run in the bare world with the same
    temporary directory. *)
Definition uniform {A} (m : M A) : Prop :=
  forall w, m w = (value (m (canon (temp w))), overlay (world (m (canon (temp w)))) w).

(** *** Character classes of strings *)

(** Every character of the string satisfies [P]. *)
Fixpoint all_chars (P : ascii -> bool) (s : string) : bool :=
  match s with
  | EmptyString => true
  | String c r => (P c && all_chars P r)%bool
  end.

(** The characters [safe_slug] lets through. *)
Definition slug_char_ok (c : ascii) : bool := (isalnum c || slug_punct c)%bool.

Definition head_char (s : string) : option ascii :=
  match s with
  | EmptyString => None
  | String c _ => Some c
  end.

Fixpoint last_char (s : string) : option ascii :=
  match s with
  | EmptyString => None
  | String c EmptyString => Some c
  | String _ r => last_char r
  end.

(** Neither the first nor the last character is white space. *)
Definition trimmed (s : string) : Prop :=
  (forall c, head_char s = Some c -> isspace c = false) /\
  (forall c, last_char s = Some c -> isspace c = false).

(** A decimal digit or the minus sign. *)
Definition is_numeral_char (c : ascii) : bool := (is_digit c || Ascii.eqb c "-")%bool.

(** The number written by a string of decimal digits, leading zeros allowed. *)
Definition decode_digits (s : string) : option N :=
  option_map N.of_uint (NilEmpty.uint_of_string s).

(** The integer written by an optional minus sign and decimal digits. *)
Definition read_04d (s : string) : option Z :=
  match s with
  | String c r =>
      if Ascii.eqb c "-" then option_map (fun n => Z.opp (Z.of_N n)) (decode_digits r)
      else option_map Z.of_N (decode_digits s)
  | EmptyString => None
  end.

Definition no_slash (c : ascii) : bool := negb (Ascii.eqb c "/").

(** The chunks of a stream, one after the other. *)
Definition joined (cs : list string) : string := fold_right String.append "" cs.

(** *** Results and reports *)

(** The frame counts and failure reasons that [process_url] returns. *)
Inductive tagged_result : nat -> option string -> Prop :=
| result_ok : tagged_result 1 None
| result_no_url : tagged_result 0 (Some "no_url_in_row")
| result_download (d : string) : tagged_result 0 (Some ("download_error: " +:+ d))
| result_image (d : string) : tagged_result 0 (Some ("image_process_error: " +:+ d))
| result_video_open : tagged_result 0 (Some "video_open_error")
| result_read_frame : tagged_result 0 (Some "read_first_frame_error")
| result_first_frame (d : string) : tagged_result 0 (Some ("first_frame_error: " +:+ d))
| result_embed (d : string) : tagged_result 1 (Some ("embed_error: " +:+ d)).

(** The ordinal and job id of a row report. *)
Definition reported (ev : Event) : option (Z * string) :=
  match ev with
  | EvRowFail i job_id _ | EvRowOk i job_id _ => Some (i, job_id)
  | _ => None
  end.

(** A FAIL line with the reason [no_url_in_row]. *)
Definition is_no_url_report (ev : Event) : bool :=
  match ev with
  | EvRowFail _ _ err => String.eqb err "no_url_in_row"
  | _ => false
  end.

(** *** Probes of a download *)



(** ** Concrete environments for the examples *)

Module Scenario.

Definition served (content_type : string) (body : list string) : Outcome Response :=
  Ok {| resp_content_type := content_type;
        resp_body := {| chunks := body; stream_error := None |} |}.

(** No network at all; a healthy disk; decoders and model that answer. *)
Definition offline : Env := {|
  requests_head := fun _ => Raise "HEAD failed: network is unreachable";
  requests_get := fun _ => Raise "GET failed: network is unreachable";
  urlopen := fun _ => Raise "urlopen error: network is unreachable";
  open_error := fun _ => None;
  remove_error := fun _ => None;
  image_open := fun bytes => Ok ("PNG<" +:+ bytes +:+ ">");
  video_capture := fun bytes => VideoFrame ("PNG<frame 0 of " +:+ bytes +:+ ">");
  clip_embed := fun png => Ok ("CLIP<" +:+ png +:+ ">");
  tmpdir := "/tmp/tmpk3x9";
  csv_rows := fun _ => None
|}.

Definition with_get (f : string -> Outcome Response) (env : Env) : Env := {|
  requests_head := requests_head env; requests_get := f; urlopen := urlopen env;
  open_error := open_error env; remove_error := remove_error env;
  image_open := image_open env; video_capture := video_capture env;
  clip_embed := clip_embed env; tmpdir := tmpdir env; csv_rows := csv_rows env
|}.

Definition with_urlopen (f : string -> Outcome Stream) (env : Env) : Env := {|
  requests_head := requests_head env; requests_get := requests_get env; urlopen := f;
  open_error := open_error env; remove_error := remove_error env;
  image_open := image_open env; video_capture := video_capture env;
  clip_embed := clip_embed env; tmpdir := tmpdir env; csv_rows := csv_rows env
|}.

Definition with_open_error (f : string -> option string) (env : Env) : Env := {|
  requests_head := requests_head env; requests_get := requests_get env;
  urlopen := urlopen env;
  open_error := f; remove_error := remove_error env;
  image_open := image_open env; video_capture := video_capture env;
  clip_embed := clip_embed env; tmpdir := tmpdir env; csv_rows := csv_rows env
|}.

Definition with_remove_error (f : string -> option string) (env : Env) : Env := {|
  requests_head := requests_head env; requests_get := requests_get env;
  urlopen := urlopen env;
  open_error := open_error env; remove_error := f;
  image_open := image_open env; video_capture := video_capture env;
  clip_embed := clip_embed env; tmpdir := tmpdir env; csv_rows := csv_rows env
|}.

Definition with_csv (f : string -> option (list Row)) (env : Env) : Env := {|
  requests_head := requests_head env; requests_get := requests_get env;
  urlopen := urlopen env;
  open_error := open_error env; remove_error := remove_error env;
  image_open := image_open env; video_capture := video_capture env;
  clip_embed := clip_embed env; tmpdir := tmpdir env; csv_rows := f
|}.

Definition with_video_capture (f : string -> VideoResult) (env : Env) : Env := {|
  requests_head := requests_head env; requests_get := requests_get env;
  urlopen := urlopen env;
  open_error := open_error env; remove_error := remove_error env;
  image_open := image_open env; video_capture := f;
  clip_embed := clip_embed env; tmpdir := tmpdir env; csv_rows := csv_rows env
|}.

(** The server answers [GET url] with the given content type and body. *)
Definition serving (url content_type : string) (body : list string) : Env :=
  with_get (fun u => if String.eqb u url then served content_type body
                     else Raise "404 Client Error: Not Found") offline.

(** The primary transport is down, urllib would get through. *)
Definition primary_down : Env :=
  with_urlopen (fun _ => Ok {| chunks := ["JFIF"; "data"]; stream_error := None |}) offline.

(** The path refuses to be opened for writing. *)
Definition refuse (path : string) : string -> option string :=
  fun p => if String.eqb p path
           then Some ("[Errno 13] Permission denied: '" +:+ path +:+ "'")
           else None.

Definition case_a_row : Row := [("tvc", Some "https://x/a.jpg"); ("id", Some "7")].
Definition blank_row : Row := [("tvc", Some "  "); ("id", Some "8")].

(** A store in which job [url_0003] of [batch_outputs] is complete. *)
Definition complete_job : World := {|
  files := {[ "batch_outputs/url_0003/first_frame.npy" := "CLIP<PNG<old>>";
              "batch_outputs/url_0003/url.txt" := "https://x/a.jpg";
              "batch_outputs/url_0003/metadata.txt" := "id=7" +:+ nl;
              "batch_outputs/url_0003/media_type.txt" := "video" ]};
  dirs := {[ "batch_outputs"; "batch_outputs/url_0003" ]};
  temp := ∅;
  trace := []
|}.

End Scenario.

(** ** The model at work *)

Example lower_ex : lower "HTTP://X/A.JPG?q=1" = "http://x/a.jpg?q=1".
Proof. reflexivity. Qed.

Example strip_ex : strip "  a b  " = "a b" /\ strip "   " = "".
Proof. split; reflexivity. Qed.

Example basename_ex :
  basename "https://x/dir/v.mp4" = "v.mp4" /\ basename "https://x/dir/" = "".
Proof. split; reflexivity. Qed.

Example format_04d_ex :
  format_04d 3 = "0003" /\ format_04d 12345 = "12345" /\
  format_04d (-1) = "-001" /\ format_04d 0 = "0000".
Proof. repeat split; reflexivity. Qed.

Example path_join_ex :
  path_join "batch_outputs" "url_0003" = "batch_outputs/url_0003" /\
  path_join "out/" "a" = "out/a" /\ path_join "" "a" = "a".
Proof. repeat split; reflexivity. Qed.

Example safe_slug_ex :
  safe_slug " clip one?.mp4 " = "clip one_.mp4" /\ safe_slug "" = "item".
Proof. split; reflexivity. Qed.

Example path_part_ex : path_part "https://X/A.JPG?next=b.mp4#t" = "https://x/a.jpg".
Proof. reflexivity. Qed.

(** End-to-end case A of the specification: an image row at ordinal 3. *)
Example end_to_end_case_a :
  let r := process_url (Scenario.serving "https://x/a.jpg" "image/jpeg" ["JF"; "IF"]) 3
             Scenario.case_a_row (Some "tvc") "batch_outputs" false empty_world in
  value r = Ok ("url_0003", 1%nat, None) /\
  files (world r) !! "batch_outputs/url_0003/url.txt" = Some "https://x/a.jpg" /\
  files (world r) !! "batch_outputs/url_0003/metadata.txt" = Some ("id=7" +:+ nl) /\
  files (world r) !! "batch_outputs/url_0003/media_type.txt" = Some "image" /\
  files (world r) !! "batch_outputs/url_0003/first_frame.npy" = Some "CLIP<PNG<JFIF>>" /\
  trace (world r) =
    [EvMkdir "batch_outputs/url_0003";
     EvOpen "batch_outputs/url_0003/url.txt";
     EvOpen "batch_outputs/url_0003/metadata.txt";
     EvGet "https://x/a.jpg";
     EvOpen "batch_outputs/url_0003/media_type.txt";
     EvOpen "batch_outputs/url_0003/first_frame.npy"].
Proof. repeat split; vm_compute; reflexivity. Qed.

(** End-to-end case B of the specification: a video whose decoder does not
    open. *)
Example end_to_end_case_b :
  let env := Scenario.with_video_capture (fun _ => VideoNotOpened)
               (Scenario.serving "https://x/v.mp4" "application/octet-stream" ["ftyp"]) in
  let r := process_url env 0 [("tvc", Some "https://x/v.mp4")] (Some "tvc")
             "batch_outputs" false empty_world in
  value r = Ok ("url_0000", 0%nat, Some "video_open_error") /\
  files (world r) !! "batch_outputs/url_0000/url.txt" = Some "https://x/v.mp4" /\
  files (world r) !! "batch_outputs/url_0000/metadata.txt" = Some "" /\
  files (world r) !! "batch_outputs/url_0000/media_type.txt" = Some "video" /\
  files (world r) !! "batch_outputs/url_0000/first_frame.npy" = None.
Proof. repeat split; vm_compute; reflexivity. Qed.

(** The urllib block, run on its own, downloads and classifies. *)
Example urllib_fallback_ex :
  let r := urllib_fallback Scenario.primary_down "https://x/a.jpg" "/tmp/tmpk3x9/a.jpg"
             empty_world in
  value r = Ok ("image", None) /\
  temp (world r) !! "/tmp/tmpk3x9/a.jpg" = Some "JFIFdata" /\
  trace (world r) = [EvUrlopen "https://x/a.jpg"].
Proof. repeat split; vm_compute; reflexivity. Qed.

(** An exception whose text is empty: line 199 tests the truth value of the
    error, so the row goes on as after a download without error. *)
Example empty_error_text_passes_for_success :
  let env := Scenario.with_get (fun _ => Raise "") Scenario.offline in
  let r := process_url env 3 Scenario.case_a_row (Some "tvc") "batch_outputs" false
             empty_world in
  value (download_file env "https://x/a.jpg"
           (tmp_path_of (tmpdir env) "https://x/a.jpg") empty_world)
    = Ok ("image", Some "") /\
  value r = Ok ("url_0003", 0%nat,
                Some "image_process_error: [Errno 2] No such file or directory: '/tmp/tmpk3x9/a.jpg'") /\
  files (world r) !! "batch_outputs/url_0003/media_type.txt" = Some "image".
Proof. repeat split; vm_compute; reflexivity. Qed.

(** ** Basic facts about the monad *)

Lemma bind_ok {A B} (m : M A) (k : A -> M B) w a w' :
  m w = (Ok a, w') -> bind m k w = k a w'.
Proof. intros H. unfold bind. now rewrite H. Qed.

(** ** Paths of a job are pairwise distinct *)

Lemma append_cons (x : ascii) (a b : string) : String x a +:+ b = String x (a +:+ b).
Proof. reflexivity. Qed.

Lemma append_nil_l (b : string) : "" +:+ b = b.
Proof. reflexivity. Qed.

Lemma append_assoc_str (a b c : string) : (a +:+ b) +:+ c = a +:+ (b +:+ c).
Proof.
  induction a as [|x a IH]; [reflexivity |].
  rewrite !append_cons. f_equal. exact IH.
Qed.

Lemma append_cancel_l (p a b : string) : p +:+ a = p +:+ b -> a = b.
Proof.
  induction p as [|x p IH]; intros H; [exact H |].
  rewrite !append_cons in H. injection H as H. now apply IH.
Qed.

Lemma path_join_prefix (d name : string) :
  startswith "/" name = false -> path_join d name = dir_prefix d +:+ name.
Proof.
  intros H. unfold path_join, dir_prefix. rewrite H.
  destruct (negb (truthy d)); [reflexivity |].
  destruct (endswith_char "/" d); [reflexivity |].
  symmetry. apply append_assoc_str.
Qed.

Lemma path_join_inj (d a b : string) :
  startswith "/" a = false -> startswith "/" b = false ->
  path_join d a = path_join d b -> a = b.
Proof.
  intros Ha Hb. rewrite !path_join_prefix by assumption. apply append_cancel_l.
Qed.

Lemma artifact_paths_distinct (out_root : string) (index : Z) :
  NoDup (artifact_paths out_root index).
Proof.
  unfold artifact_paths, first_embed_path_of, url_txt_path_of,
    metadata_txt_path_of, media_type_path_of.
  repeat constructor; rewrite ?elem_of_cons, ?elem_of_nil;
    intros H; repeat (destruct H as [H | H]); try contradiction;
    apply path_join_inj in H; try reflexivity; discriminate H.
Qed.

(** ** Classification and download: values and effects *)

Lemma content_type_media_kind (ct t : string) :
  content_type_media ct = Some t -> t = "image" \/ t = "video".
Proof.
  unfold content_type_media. intros H.
  destruct (any_in ["image/"; "image"] ct); [left; congruence |].
  destruct (any_in ["video/"; "video"] ct); [right; congruence | discriminate].
Qed.

(** [detect_media_type] returns [classified] in every world, and its only
    possible effect is one HEAD probe, made when no extension is recognised. *)
Lemma detect_media_type_run (env : Env) (url : string) (w : World) :
  detect_media_type env url w = (Ok (classified env url), w) \/
  (any_in image_exts (path_part url) = false /\
   any_in video_exts (path_part url) = false /\
   detect_media_type env url w = (Ok (classified env url), log (EvHead url) w)).
Proof.
  unfold classified, detect_media_type.
  destruct (any_in image_exts (path_part url)) eqn:Hi; [left; reflexivity |].
  destruct (any_in video_exts (path_part url)) eqn:Hv; [left; reflexivity |].
  right. split; [reflexivity |]. split; [reflexivity |].
  unfold bind, try_except, requests_head_content_type, emit, update, ret, raise, value.
  cbn.
  destruct (requests_head env url) as [ct | e]; cbn; [| reflexivity].
  destruct (content_type_media (lower ct)); reflexivity.
Qed.

Lemma detect_media_type_value (env : Env) (url : string) (w : World) :
  value (detect_media_type env url w) = Ok (classified env url).
Proof.
  destruct (detect_media_type_run env url w) as [H | (_ & _ & H)]; now rewrite H.
Qed.

Lemma classified_kind (env : Env) (url : string) :
  classified env url = "image" \/ classified env url = "video".
Proof.
  unfold classified, detect_media_type.
  destruct (any_in image_exts (path_part url)); [left; reflexivity |].
  destruct (any_in video_exts (path_part url)); [right; reflexivity |].
  unfold bind, try_except, requests_head_content_type, emit, update, ret, raise, value.
  cbn.
  destruct (requests_head env url) as [ct | e]; cbn; [| right; reflexivity].
  destruct (content_type_media (lower ct)) as [t |] eqn:Ht; cbn; [| right; reflexivity].
  now apply content_type_media_kind in Ht.
Qed.

Lemma write_chunks_run (path : string) (cs : list string) (w : World) :
  exists t, write_chunks path cs w = (Ok tt, set_temp (fun _ => t) w).
Proof.
  revert w. induction cs as [|c cs IH]; intros w.
  - exists (temp w). destruct w; reflexivity.
  - cbn [write_chunks]. unfold bind.
    destruct (truthy c).
    + unfold temp_append, update.
      destruct (IH (set_temp (fun t => <[path:=default "" (t !! path) +:+ c]> t) w)) as [t Ht].
      rewrite Ht. exists t. reflexivity.
    + unfold ret. destruct (IH w) as [t Ht]. rewrite Ht. now exists t.
Qed.

Ltac step_detect :=
  match goal with
  | |- context [detect_media_type ?env ?url ?w] =>
      destruct (detect_media_type_run env url w) as [-> | (_ & _ & ->)]
  end.

Ltac step_chunks :=
  match goal with
  | |- context [write_chunks ?p ?cs ?w] =>
      let t := fresh "t" in
      destruct (write_chunks_run p cs w) as [t ->]
  end.

Lemma download_file_run (env : Env) (url dest : string) (w : World) :
  exists w', download_file env url dest w = (Ok (download_value env url dest), w') /\
    files w' = files w /\ dirs w' = dirs w /\
    exists evs, trace w' = trace w ++ EvGet url :: evs /\
                Forall (fun ev => ev = EvHead url) evs.
Proof.
  unfold download_file, download_value, requests_get_checked, temp_open, stream_end.
  unfold try_except, bind, emit, update, ret, raise.
  destruct (requests_get env url) as [r | e];
    [ destruct (content_type_media (lower (resp_content_type r))) as [t |];
      destruct (open_error env dest) as [eo |];
      destruct (stream_error (resp_body r)) as [es |] | ];
    cbn -[detect_media_type write_chunks];
    repeat first [step_detect | step_chunks];
    cbn -[detect_media_type write_chunks];
    repeat first [step_detect | step_chunks];
    (eexists; split; [reflexivity |]); cbn;
    (split; [reflexivity |]); (split; [reflexivity |]);
    rewrite <- ?app_assoc; cbn; (eexists; split; [reflexivity |]);
    repeat constructor.
Qed.

Lemma download_file_value (env : Env) (url dest : string) (w : World) :
  value (download_file env url dest w) = Ok (download_value env url dest).
Proof. destruct (download_file_run env url dest w) as (w' & -> & _). reflexivity. Qed.

Ltac step_oracle :=
  match goal with
  | |- context [match image_open ?e ?b with _ => _ end] =>
      destruct (image_open e b) eqn:?
  | |- context [match video_capture ?e ?b with _ => _ end] =>
      destruct (video_capture e b) eqn:?
  | |- context [match clip_embed ?e ?b with _ => _ end] =>
      destruct (clip_embed e b) eqn:?
  | |- context [match open_error ?e ?p with _ => _ end] =>
      destruct (open_error e p) eqn:?
  | |- context [match remove_error ?e ?p with _ => _ end] =>
      destruct (remove_error e p) eqn:?
  end.

(** What follows a download without error: the media type is written (best
    effort), then the frame is extracted and embedded; only the two artifact
    paths can change, and the embedding changes only on success. *)
Lemma persist_and_embed_run (env : Env)
    (job mt media embed tmp frame : string) (w : World) :
  media <> embed ->
  exists res w',
    persist_and_embed env job mt media embed tmp frame w = (Ok res, w') /\
    fst (fst res) = job /\ dirs w' = dirs w /\
    (forall p, p <> media -> p <> embed -> files w' !! p = files w !! p) /\
    files w' !! media =
      match open_error env media with
      | None => Some mt
      | Some _ => files w !! media
      end /\
    (snd res <> None -> files w' !! embed = files w !! embed) /\
    (snd res = None ->
       exists png v, clip_embed env png = Ok v /\ files w' !! embed = Some v) /\
    (forall e, snd res = Some e -> truthy e = true) /\
    exists evs, trace w' = trace w ++ EvOpen media :: evs /\
                Forall (fun ev => ev = EvOpen embed) evs.
Proof.
  intros Hne.
  unfold persist_and_embed, extract_frame, extract_image, extract_video,
    embed_image_clip_to_npy, swallow, write_file.
  unfold try_except, bind, emit, update, get, ret, raise.
  destruct (open_error env media) as [em |] eqn:Hm;
    destruct (String.eqb mt "image");
    cbn;
    destruct (temp w !! tmp) as [bytes |]; cbn.
  all: repeat (step_oracle; cbn; rewrite ?lookup_insert_eq; cbn).
  all: eexists; eexists; (split; [reflexivity |]); cbn.
  all: repeat split; try reflexivity; intros; simplify_map_eq; try congruence; eauto.
  all: try (rewrite <- ?app_assoc; cbn; eexists; split; [reflexivity |]; repeat constructor).
Qed.

(** ** The phases of [process_url] *)

Lemma remove_quietly_run (env : Env) (p : string) (w : World) :
  remove_quietly env p w = (Ok tt, removed env p w).
Proof.
  unfold removed, remove_quietly, swallow, path_exists, os_remove.
  unfold try_except, bind, emit, update, get, ret, raise, world.
  destruct (files w !! p); cbn; [| reflexivity].
  destruct (remove_error env p); reflexivity.
Qed.

Lemma removed_files (env : Env) (p q : string) (w : World) :
  files (removed env p w) !! q =
    if bool_decide (q = p) then
      match remove_error env p with
      | None => None
      | Some _ => files w !! p
      end
    else files w !! q.
Proof.
  unfold removed, remove_quietly, swallow, path_exists, os_remove.
  unfold try_except, bind, emit, update, get, ret, raise, world.
  destruct (files w !! p) eqn:Hp; cbn;
    destruct (remove_error env p); cbn;
    case_bool_decide; subst; simplify_map_eq; congruence.
Qed.

Lemma removed_trace (env : Env) (p : string) (w : World) :
  trace (removed env p w) =
    trace w ++ (if bool_decide (is_Some (files w !! p)) then [EvRemove p] else []).
Proof.
  unfold removed, remove_quietly, swallow, path_exists, os_remove.
  unfold try_except, bind, emit, update, get, ret, raise, world.
  destruct (files w !! p) eqn:Hp; cbn; [| now rewrite app_nil_r].
  destruct (remove_error env p); reflexivity.
Qed.

Lemma removed_dirs (env : Env) (p : string) (w : World) :
  dirs (removed env p w) = dirs w.
Proof.
  unfold removed, remove_quietly, swallow, path_exists, os_remove.
  unfold try_except, bind, emit, update, get, ret, raise, world.
  destruct (files w !! p); cbn; [| reflexivity].
  destruct (remove_error env p); reflexivity.
Qed.

Lemma write_quietly_run (env : Env) (p c : string) (w : World) :
  swallow (write_file env p c) w = (Ok tt, written env p c w).
Proof.
  unfold written, swallow, write_file.
  unfold try_except, bind, emit, update, get, ret, raise, world.
  cbn. destruct (open_error env p); reflexivity.
Qed.

Lemma written_files (env : Env) (p c q : string) (w : World) :
  files (written env p c w) !! q =
    if bool_decide (q = p) then
      match open_error env p with
      | None => Some c
      | Some _ => files w !! p
      end
    else files w !! q.
Proof.
  unfold written, swallow, write_file.
  unfold try_except, bind, emit, update, get, ret, raise, world.
  cbn. destruct (open_error env p); cbn;
    case_bool_decide; subst; simplify_map_eq; reflexivity.
Qed.

Lemma written_trace (env : Env) (p c : string) (w : World) :
  trace (written env p c w) = trace w ++ [EvOpen p].
Proof.
  unfold written, swallow, write_file.
  unfold try_except, bind, emit, update, get, ret, raise, world.
  cbn. destruct (open_error env p); reflexivity.
Qed.

Lemma written_dirs (env : Env) (p c : string) (w : World) :
  dirs (written env p c w) = dirs w.
Proof.
  unfold written, swallow, write_file.
  unfold try_except, bind, emit, update, get, ret, raise, world.
  cbn. destruct (open_error env p); reflexivity.
Qed.

Lemma ensure_dir_files (p : string) (w : World) :
  files (world (ensure_dir p w)) = files w.
Proof. reflexivity. Qed.

Lemma ensure_dir_trace (p : string) (w : World) :
  trace (world (ensure_dir p w)) = trace w ++ [EvMkdir p].
Proof. reflexivity. Qed.

Lemma ensure_dir_dirs (p : string) (w : World) :
  dirs (world (ensure_dir p w)) = {[p]} ∪ dirs w.
Proof. reflexivity. Qed.

Lemma process_url_phases (env : Env) (index : Z) (row : Row) (col : option string)
    (out_root : string) (overwrite : bool) (w : World) :
  truthy (row_url col row) = true ->
  process_url env index row col out_root overwrite w =
    with_tempdir env
      (fetch_and_embed env (row_url col row) (job_id_of index)
         (media_type_path_of out_root index) (first_embed_path_of out_root index))
      (provenanced env out_root index overwrite col row w).
Proof.
  intros Hurl. unfold process_url. rewrite Hurl. cbn [negb].
  unfold provenanced, cleaned.
  fold (job_dir_of out_root index).
  fold (first_embed_path_of out_root index) (url_txt_path_of out_root index)
    (metadata_txt_path_of out_root index) (media_type_path_of out_root index).
  erewrite bind_ok by reflexivity.
  destruct overwrite.
  - unfold clear_artifacts.
    erewrite bind_ok.
    2:{ erewrite bind_ok by apply remove_quietly_run.
        erewrite bind_ok by apply remove_quietly_run.
        erewrite bind_ok by apply remove_quietly_run.
        apply remove_quietly_run. }
    erewrite bind_ok by apply write_quietly_run.
    erewrite bind_ok by apply write_quietly_run.
    reflexivity.
  - erewrite bind_ok by reflexivity.
    erewrite bind_ok by apply write_quietly_run.
    erewrite bind_ok by apply write_quietly_run.
    reflexivity.
Qed.

Lemma fetch_and_embed_run (env : Env) (url job media embed tdir : string) (w : World) :
  media <> embed ->
  exists res w' heads rest,
    fetch_and_embed env url job media embed tdir w = (Ok res, w') /\
    fst (fst res) = job /\ dirs w' = dirs w /\
    (forall p, p <> media -> p <> embed -> files w' !! p = files w !! p) /\
    trace w' = trace w ++ EvGet url :: heads ++ rest /\
    Forall (fun ev => ev = EvHead url) heads /\
    (forall e, snd res = Some e -> truthy e = true) /\
    (snd res <> None -> files w' !! embed = files w !! embed) /\
    (snd res = None ->
       exists png v, clip_embed env png = Ok v /\ files w' !! embed = Some v) /\
    (let fetched := download_value env url (tmp_path_of tdir url) in
     if truthy (or_empty (snd fetched))
     then res = (job, 0%nat, Some ("download_error: " +:+ or_empty (snd fetched))) /\
          files w' = files w /\ rest = []
     else files w' !! media =
            match open_error env media with
            | None => Some (fst fetched)
            | Some _ => files w !! media
            end /\
          exists opens, rest = EvOpen media :: opens /\
                        Forall (fun ev => ev = EvOpen embed) opens).
Proof.
  intros Hne. unfold fetch_and_embed.
  destruct (download_file_run env url (tmp_path_of tdir url) w)
    as (w1 & Hd & Hf & Hdirs & heads & Ht & Hheads).
  erewrite bind_ok by exact Hd.
  cbn zeta.
  destruct (truthy (or_empty (snd (download_value env url (tmp_path_of tdir url))))) eqn:Herr.
  - exists (job, 0%nat, Some ("download_error: " +:+
               or_empty (snd (download_value env url (tmp_path_of tdir url))))),
      w1, heads, [].
    rewrite app_nil_r. unfold ret. cbn.
    repeat split; try assumption; try reflexivity.
    + intros p _ _. now rewrite Hf.
    + intros e He. injection He as <-. reflexivity.
    + intros _. now rewrite Hf.
    + discriminate.
  - destruct (persist_and_embed_run env job
                (fst (download_value env url (tmp_path_of tdir url)))
                media embed (tmp_path_of tdir url) (path_join tdir "first_frame.png")
                w1 Hne)
      as (res & w2 & Hp & Hjob & Hd2 & Hother & Hmedia & Hfail & Hok & Htruthy & opens & Ht2 & Hopens).
    exists res, w2, heads, (EvOpen media :: opens).
    rewrite Hp.
    repeat split; try assumption.
    + congruence.
    + intros p Hp1 Hp2. rewrite Hother by assumption. now rewrite Hf.
    + rewrite Ht2, Ht, <- app_assoc. reflexivity.
    + intros H. rewrite Hfail by assumption. now rewrite Hf.
    + rewrite Hmedia, Hf. reflexivity.
    + exists opens. split; [reflexivity | assumption].
Qed.

Lemma with_tempdir_run {A} (env : Env) (body : string -> M A) (w : World) :
  with_tempdir env body w =
    (value (body (tmpdir env) (set_temp (fun _ => ∅) w)),
     set_temp (fun _ => ∅) (world (body (tmpdir env) (set_temp (fun _ => ∅) w)))).
Proof. reflexivity. Qed.

Lemma artifact_paths_neq (out_root : string) (index : Z) :
  first_embed_path_of out_root index <> url_txt_path_of out_root index /\
  first_embed_path_of out_root index <> metadata_txt_path_of out_root index /\
  first_embed_path_of out_root index <> media_type_path_of out_root index /\
  url_txt_path_of out_root index <> metadata_txt_path_of out_root index /\
  url_txt_path_of out_root index <> media_type_path_of out_root index /\
  metadata_txt_path_of out_root index <> media_type_path_of out_root index.
Proof.
  unfold first_embed_path_of, url_txt_path_of, metadata_txt_path_of, media_type_path_of.
  repeat split; intros H; apply path_join_inj in H; try reflexivity; discriminate H.
Qed.

Lemma elem_of_artifact_paths (out_root : string) (index : Z) (p : string) :
  p ∈ artifact_paths out_root index <->
  p = first_embed_path_of out_root index \/ p = url_txt_path_of out_root index \/
  p = metadata_txt_path_of out_root index \/ p = media_type_path_of out_root index.
Proof.
  unfold artifact_paths. rewrite !elem_of_cons, elem_of_nil. tauto.
Qed.

Lemma cleaned_files (env : Env) (out_root : string) (index : Z) (overwrite : bool)
    (w : World) (p : string) :
  files (cleaned env out_root index overwrite w) !! p =
    if (overwrite && bool_decide (p ∈ artifact_paths out_root index))%bool
    then match remove_error env p with
         | None => None
         | Some _ => files w !! p
         end
    else files w !! p.
Proof.
  destruct (artifact_paths_neq out_root index) as (N1 & N2 & N3 & N4 & N5 & N6).
  unfold cleaned. destruct overwrite; cbn [andb]; [| reflexivity].
  destruct (decide (p ∈ artifact_paths out_root index)) as [Hin | Hin].
  - rewrite (bool_decide_eq_true_2 _ Hin).
    rewrite !removed_files, ensure_dir_files.
    rewrite elem_of_artifact_paths in Hin.
    destruct Hin as [-> | [-> | [-> | ->]]];
      repeat (case_bool_decide; try congruence);
      destruct (remove_error env _); reflexivity.
  - rewrite (bool_decide_eq_false_2 _ Hin).
    rewrite !removed_files, ensure_dir_files.
    rewrite elem_of_artifact_paths in Hin.
    repeat (case_bool_decide; [exfalso; apply Hin; subst; tauto |]).
    reflexivity.
Qed.

Lemma cleaned_dirs (env : Env) (out_root : string) (index : Z) (overwrite : bool)
    (w : World) :
  dirs (cleaned env out_root index overwrite w) = {[job_dir_of out_root index]} ∪ dirs w.
Proof.
  unfold cleaned. destruct overwrite; rewrite ?removed_dirs; reflexivity.
Qed.

Lemma cleaned_trace (env : Env) (out_root : string) (index : Z) (overwrite : bool)
    (w : World) :
  exists removals,
    trace (cleaned env out_root index overwrite w) =
      trace w ++ EvMkdir (job_dir_of out_root index) :: removals /\
    Forall (fun ev => exists p, ev = EvRemove p /\ p ∈ artifact_paths out_root index)
      removals /\
    (overwrite = false -> removals = []) /\
    (overwrite = true ->
       forall p, p ∈ artifact_paths out_root index -> is_Some (files w !! p) ->
                 EvRemove p ∈ removals).
Proof.
  destruct (artifact_paths_neq out_root index) as (N1 & N2 & N3 & N4 & N5 & N6).
  unfold cleaned. destruct overwrite.
  - rewrite !removed_trace, !removed_files.
    rewrite !(bool_decide_eq_false_2 (_ = _)) by congruence.
    rewrite ensure_dir_files, ensure_dir_trace.
    eexists. split; [rewrite <- !app_assoc; cbn [app]; reflexivity |].
    split; [| split; [discriminate |]].
    + repeat (apply Forall_app; split);
        case_bool_decide; constructor; try constructor;
        eexists; (split; [reflexivity |]);
        rewrite elem_of_artifact_paths; tauto.
    + intros _ p Hin Hsome. rewrite elem_of_artifact_paths in Hin.
      rewrite !elem_of_app.
      destruct Hin as [-> | [-> | [-> | ->]]];
        rewrite (bool_decide_eq_true_2 _ Hsome); rewrite list_elem_of_singleton; tauto.
  - rewrite ensure_dir_trace. exists []. split; [reflexivity |].
    split; [constructor |]. split; [reflexivity | discriminate].
Qed.

Lemma provenanced_files (env : Env) (out_root : string) (index : Z) (overwrite : bool)
    (col : option string) (row : Row) (w : World) (p : string) :
  files (provenanced env out_root index overwrite col row w) !! p =
    if bool_decide (p = url_txt_path_of out_root index) then
      match open_error env p with
      | None => Some (row_url col row)
      | Some _ => files (cleaned env out_root index overwrite w) !! p
      end
    else if bool_decide (p = metadata_txt_path_of out_root index) then
      match open_error env p with
      | None => Some (metadata_text col row)
      | Some _ => files (cleaned env out_root index overwrite w) !! p
      end
    else files (cleaned env out_root index overwrite w) !! p.
Proof.
  destruct (artifact_paths_neq out_root index) as (N1 & N2 & N3 & N4 & N5 & N6).
  unfold provenanced. rewrite !written_files.
  repeat (case_bool_decide; subst; try congruence);
    rewrite ?written_files; repeat (case_bool_decide; try congruence);
    reflexivity.
Qed.

Lemma provenanced_trace (env : Env) (out_root : string) (index : Z) (overwrite : bool)
    (col : option string) (row : Row) (w : World) :
  trace (provenanced env out_root index overwrite col row w) =
    trace (cleaned env out_root index overwrite w) ++
      [EvOpen (url_txt_path_of out_root index);
       EvOpen (metadata_txt_path_of out_root index)].
Proof.
  unfold provenanced. rewrite !written_trace, <- app_assoc. reflexivity.
Qed.

Lemma provenanced_dirs (env : Env) (out_root : string) (index : Z) (overwrite : bool)
    (col : option string) (row : Row) (w : World) :
  dirs (provenanced env out_root index overwrite col row w) =
    {[job_dir_of out_root index]} ∪ dirs w.
Proof.
  unfold provenanced. rewrite !written_dirs. apply cleaned_dirs.
Qed.

(** The run of [process_url] on a row that has a URL, phase by phase. *)
Lemma process_url_run (env : Env) (index : Z) (row : Row) (col : option string)
    (out_root : string) (overwrite : bool) (w : World) :
  truthy (row_url col row) = true ->
  let url := row_url col row in
  let media := media_type_path_of out_root index in
  let embed := first_embed_path_of out_root index in
  let w0 := provenanced env out_root index overwrite col row w in
  exists res w' heads rest,
    process_url env index row col out_root overwrite w = (Ok res, w') /\
    fst (fst res) = job_id_of index /\
    temp w' = ∅ /\
    dirs w' = {[job_dir_of out_root index]} ∪ dirs w /\
    (forall p, p <> media -> p <> embed -> files w' !! p = files w0 !! p) /\
    trace w' = trace w0 ++ EvGet url :: heads ++ rest /\
    Forall (fun ev => ev = EvHead url) heads /\
    (forall e, snd res = Some e -> truthy e = true) /\
    (snd res <> None -> files w' !! embed = files w0 !! embed) /\
    (snd res = None ->
       exists png v, clip_embed env png = Ok v /\ files w' !! embed = Some v) /\
    (let fetched := download_value env url (tmp_path_of (tmpdir env) url) in
     if truthy (or_empty (snd fetched))
     then res = (job_id_of index, 0%nat,
                 Some ("download_error: " +:+ or_empty (snd fetched))) /\
          files w' = files w0 /\ rest = []
     else files w' !! media =
            match open_error env media with
            | None => Some (fst fetched)
            | Some _ => files w0 !! media
            end /\
          exists opens, rest = EvOpen media :: opens /\
                        Forall (fun ev => ev = EvOpen embed) opens).
Proof.
  intros Hurl url media embed w0.
  rewrite (process_url_phases _ _ _ _ _ _ _ Hurl), with_tempdir_run.
  fold url media embed w0.
  assert (Hne : media <> embed).
  { destruct (artifact_paths_neq out_root index) as (_ & _ & N3 & _).
    intros E. apply N3. symmetry. exact E. }
  destruct (fetch_and_embed_run env url (job_id_of index) media embed (tmpdir env)
              (set_temp (fun _ => ∅) w0) Hne)
    as (res & w1 & heads & rest & Hrun & H1 & H2 & H3 & H4 & H5 & H6 & H7 & H8 & H9).
  exists res, (set_temp (fun _ => ∅) w1), heads, rest.
  rewrite Hrun. cbn [value world fst snd set_temp files dirs temp trace] in *.
  repeat split; try assumption.
  rewrite H2. apply provenanced_dirs.
Qed.

(** ** Substrings *)

Lemma startswith_iff (p s : string) :
  startswith p s = true <-> exists post, s = p +:+ post.
Proof.
  revert s. induction p as [|a p IH]; intros s.
  - split; [intros _; now exists s | reflexivity].
  - destruct s as [|b s]; cbn [startswith].
    + split; [discriminate | intros [post H]; rewrite append_cons in H; discriminate].
    + destruct (Ascii.eqb_spec a b) as [-> | Hab].
      * rewrite IH. split; intros [post H]; exists post.
        -- rewrite append_cons. now f_equal.
        -- rewrite append_cons in H. now injection H.
      * split; [discriminate |].
        intros [post H]. rewrite append_cons in H. injection H as H1 _. congruence.
Qed.

Lemma contains_iff (sub s : string) :
  contains sub s = true <-> has_substring sub s.
Proof.
  unfold has_substring. induction s as [|c s IH].
  - cbn [contains]. destruct (startswith sub "") eqn:Hs.
    + split; [intros _ | reflexivity].
      apply startswith_iff in Hs as [post H]. now exists "", post.
    + split; [discriminate |]. intros (pre & post & H).
      destruct pre as [|x pre]; [| rewrite append_cons in H; discriminate].
      rewrite append_nil_l in H.
      assert (startswith sub "" = true) by (apply startswith_iff; eauto).
      congruence.
  - cbn [contains]. destruct (startswith sub (String c s)) eqn:Hs.
    + split; [intros _ | reflexivity].
      apply startswith_iff in Hs as [post H]. now exists "", post.
    + rewrite IH. split.
      * intros (pre & post & H). exists (String c pre), post.
        rewrite append_cons. now f_equal.
      * intros (pre & post & H). destruct pre as [|x pre].
        -- rewrite append_nil_l in H.
           assert (startswith sub (String c s) = true) by (apply startswith_iff; eauto).
           congruence.
        -- rewrite append_cons in H. injection H as _ H. eauto.
Qed.

Lemma any_in_iff (exts : list string) (url : string) :
  any_in exts (path_part url) = true <-> has_extension exts url.
Proof.
  unfold any_in, has_extension. rewrite existsb_exists. split.
  - intros (ext & Hin & Hc). exists ext. split.
    + now apply list_elem_of_In.
    + now apply contains_iff.
  - intros (ext & Hin & Hc). exists ext. split.
    + now apply list_elem_of_In.
    + now apply contains_iff.
Qed.

Lemma any_in_has (exts : list string) (s : string) :
  any_in exts s = true <-> exists ext, ext ∈ exts /\ has_substring ext s.
Proof.
  unfold any_in. rewrite existsb_exists. split.
  - intros (ext & Hin & Hc). exists ext. split.
    + now apply list_elem_of_In.
    + now apply contains_iff.
  - intros (ext & Hin & Hc). exists ext. split.
    + now apply list_elem_of_In.
    + now apply contains_iff.
Qed.

(** The test of lines 56-61 decides on the whole text before query and
    fragment, scheme and host included. *)
Lemma extension_test_decides (env : Env) (url : string) (w : World) :
  (has_extension image_exts url ->
     detect_media_type env url w = (Ok "image", w)) /\
  (has_extension video_exts url -> ~ has_extension image_exts url ->
     detect_media_type env url w = (Ok "video", w)).
Proof.
  split.
  - intros Hi. apply any_in_iff in Hi.
    unfold detect_media_type. now rewrite Hi.
  - intros Hv Hi. apply any_in_iff in Hv.
    rewrite <- any_in_iff in Hi. apply not_true_is_false in Hi.
    unfold detect_media_type. now rewrite Hi, Hv.
Qed.

(** ** Origin and path of a URL *)













(** ** The batch loop *)

Lemma count_app (f : Event -> bool) (l1 l2 : list Event) :
  count f (l1 ++ l2) = (count f l1 + count f l2)%nat.
Proof. unfold count. now rewrite List.filter_app, length_app. Qed.

Lemma count_silent (f : Event -> bool) (evs : list Event) :
  Forall (fun ev => f ev = false) evs -> count f evs = 0%nat.
Proof.
  unfold count. induction 1 as [|ev evs Hev _ IH]; [reflexivity |].
  cbn. now rewrite Hev.
Qed.

(** [process_url] returns normally on every row, and prints nothing. *)
Lemma process_url_total (env : Env) (index : Z) (row : Row) (col : option string)
    (out_root : string) (overwrite : bool) (w : World) :
  exists res w' evs,
    process_url env index row col out_root overwrite w = (Ok res, w') /\
    fst (fst res) = job_id_of index /\
    (forall e, snd res = Some e -> truthy e = true) /\
    trace w' = trace w ++ evs /\
    Forall (fun ev => is_report ev = false) evs.
Proof.
  destruct (truthy (row_url col row)) eqn:Hurl.
  - destruct (process_url_run env index row col out_root overwrite w Hurl)
      as (res & w' & heads & rest & Hrun & Hjob & _ & _ & _ & Ht & Hheads & Htruthy & _ & _ & Hcase).
    destruct (cleaned_trace env out_root index overwrite w)
      as (removals & Hc & Hrem & _ & _).
    rewrite provenanced_trace, Hc in Ht.
    eexists res, w', _. split; [exact Hrun |]. split; [exact Hjob |].
    split; [exact Htruthy |].
    split; [rewrite Ht; rewrite <- !app_assoc; cbn [app]; reflexivity |].
    constructor; [reflexivity |].
    apply Forall_app. split.
    { eapply Forall_impl; [exact Hrem |]. intros ev (p & -> & _). reflexivity. }
    repeat (constructor; [reflexivity |]).
    apply Forall_app. split.
    { eapply Forall_impl; [exact Hheads |]. intros ev ->. reflexivity. }
    cbv zeta in Hcase.
    match type of Hcase with context [if ?b then _ else _] => destruct b end.
    + destruct Hcase as (_ & _ & ->). constructor.
    + destruct Hcase as (_ & opens & -> & Hopens).
      constructor; [reflexivity |].
      eapply Forall_impl; [exact Hopens |]. intros ev ->. reflexivity.
  - unfold process_url. rewrite Hurl. cbn [negb].
    exists (job_id_of index, 0%nat, Some "no_url_in_row"), w, [].
    split; [reflexivity |]. split; [reflexivity |].
    split; [intros e He; injection He as <-; reflexivity |].
    split; [now rewrite app_nil_r | constructor].
Qed.

Lemma run_rows_run (env : Env) (args : Args) (rows : list Row) (indices : list Z) :
  Forall (fun i => 0 <= i < Z.of_nat (length rows)) indices ->
  forall (successes failures : nat) (w : World),
  exists s' f' w' evs,
    run_rows env args rows indices successes failures w = (Ok (s', f'), w') /\
    trace w' = trace w ++ evs /\
    s' = (successes + count is_row_ok evs)%nat /\
    f' = (failures + count is_row_fail evs)%nat /\
    (count is_row_ok evs + count is_row_fail evs)%nat = length indices /\
    Forall (fun ev => match ev with
                      | EvStderr _ | EvStart _ _ _ | EvDone _ _ => False
                      | _ => True
                      end) evs.
Proof.
  induction 1 as [|i rest Hi _ IH]; intros s f w.
  - exists s, f, w, []. cbn. rewrite app_nil_r.
    repeat split; try lia. constructor.
  - cbn [run_rows].
    destruct (rows !! Z.to_nat i) as [row |] eqn:Hrow.
    2:{ apply lookup_ge_None in Hrow. lia. }
    destruct (process_url_total env i row (Some (arg_column args)) (arg_out_dir args)
                (arg_overwrite args) w)
      as ([[job n] err] & w1 & evs1 & Hrun & _ & Htruthy & Ht1 & Hsilent).
    erewrite bind_ok by exact Hrun. cbn [fst snd] in *.
    assert (Hok1 : count is_row_ok evs1 = 0%nat).
    { apply count_silent. eapply Forall_impl; [exact Hsilent |].
      intros ev; destruct ev; cbn; congruence. }
    assert (Hfail1 : count is_row_fail evs1 = 0%nat).
    { apply count_silent. eapply Forall_impl; [exact Hsilent |].
      intros ev; destruct ev; cbn; congruence. }
    assert (Hquiet1 : Forall (fun ev => match ev with
                      | EvStderr _ | EvStart _ _ _ | EvDone _ _ => False
                      | _ => True
                      end) evs1).
    { eapply Forall_impl; [exact Hsilent |].
      intros ev; destruct ev; cbn; intros; first [exact I | discriminate]. }
    destruct (truthy (or_empty err)) eqn:Herr.
    + erewrite bind_ok by reflexivity.
      destruct (IH s (S f) (log (EvRowFail i job (or_empty err)) w1))
        as (s' & f' & w' & evs & Hrest & Ht & Hs & Hf & Hcount & Hquiet).
      exists s', f', w', (evs1 ++ EvRowFail i job (or_empty err) :: evs).
      split; [exact Hrest |].
      split; [rewrite Ht; cbn [log trace]; rewrite Ht1, <- !app_assoc; reflexivity |].
      rewrite !count_app, Hok1, Hfail1.
      change (EvRowFail i job (or_empty err) :: evs)
        with ([EvRowFail i job (or_empty err)] ++ evs).
      rewrite !count_app. cbn [count List.filter is_row_ok is_row_fail length].
      repeat split; try lia.
      apply Forall_app. split; [exact Hquiet1 |]. constructor; [exact I | exact Hquiet].
    + erewrite bind_ok by reflexivity.
      destruct (IH (S s) f (log (EvRowOk i job n) w1))
        as (s' & f' & w' & evs & Hrest & Ht & Hs & Hf & Hcount & Hquiet).
      exists s', f', w', (evs1 ++ EvRowOk i job n :: evs).
      split; [exact Hrest |].
      split; [rewrite Ht; cbn [log trace]; rewrite Ht1, <- !app_assoc; reflexivity |].
      rewrite !count_app, Hok1, Hfail1.
      change (EvRowOk i job n :: evs) with ([EvRowOk i job n] ++ evs).
      rewrite !count_app. cbn [count List.filter is_row_ok is_row_fail length].
      repeat split; try lia.
      apply Forall_app. split; [exact Hquiet1 |]. constructor; [exact I | exact Hquiet].
Qed.

Lemma resolve_end_le (requested : option Z) (total : Z) :
  resolve_end requested total <= total.
Proof.
  unfold resolve_end. destruct requested as [e |]; [| lia].
  destruct (Z.gtb_spec e total); lia.
Qed.

(** ** Uniformity: what a run writes does not depend on what is stored *)

Lemma overlay_canon (w : World) : overlay (canon (temp w)) w = w.
Proof.
  destruct w as [f d t tr]. unfold overlay, canon. cbn.
  rewrite (left_id_L ∅ (∪) f), (left_id_L ∅ (∪) d), app_nil_r. reflexivity.
Qed.

Lemma overlay_assoc (x y w : World) : overlay x (overlay y w) = overlay (overlay x y) w.
Proof.
  unfold overlay. cbn.
  rewrite (assoc_L (∪) (files x)), (assoc_L (∪) (dirs x)), <- app_assoc. reflexivity.
Qed.

Lemma uniform_ret {A} (a : A) : uniform (ret a).
Proof. intros w. unfold ret. cbn. now rewrite overlay_canon. Qed.

Lemma uniform_raise {A} (e : string) : uniform (@raise A e).
Proof. intros w. unfold raise. cbn. now rewrite overlay_canon. Qed.

Lemma uniform_bind {A B} (m : M A) (k : A -> M B) :
  uniform m -> (forall a, uniform (k a)) -> uniform (bind m k).
Proof.
  intros Hm Hk w. unfold bind.
  rewrite (Hm w).
  destruct (m (canon (temp w))) as [[a | e] w0] eqn:Hc; cbn [value world fst snd].
  - rewrite (Hk a (overlay w0 w)), (Hk a w0). cbn [overlay temp value world fst snd].
    now rewrite overlay_assoc.
  - reflexivity.
Qed.

Lemma uniform_try {A} (m : M A) (h : string -> M A) :
  uniform m -> (forall e, uniform (h e)) -> uniform (try_except m h).
Proof.
  intros Hm Hh w. unfold try_except.
  rewrite (Hm w).
  destruct (m (canon (temp w))) as [[a | e] w0] eqn:Hc; cbn [value world fst snd].
  - reflexivity.
  - rewrite (Hh e (overlay w0 w)), (Hh e w0). cbn [overlay temp value world fst snd].
    now rewrite overlay_assoc.
Qed.

Lemma uniform_update (f : World -> World) :
  (forall w, f w = overlay (f (canon (temp w))) w) -> uniform (update f).
Proof. intros Hf w. unfold update. cbn. now rewrite <- Hf. Qed.

Lemma uniform_emit (ev : Event) : uniform (emit ev).
Proof.
  apply uniform_update. intros [f d t tr]. unfold log, overlay, canon. cbn.
  now rewrite (left_id_L ∅ (∪) f), (left_id_L ∅ (∪) d).
Qed.

Lemma uniform_insert_file (p c : string) : uniform (update (set_files (insert p c))).
Proof.
  apply uniform_update. intros [f d t tr]. unfold set_files, overlay, canon. cbn.
  rewrite <- insert_union_l, (left_id_L ∅ (∪) f), (left_id_L ∅ (∪) d), app_nil_r.
  reflexivity.
Qed.

Lemma uniform_add_dir (p : string) :
  uniform (update (set_dirs (fun d => {[p]} ∪ d))).
Proof.
  apply uniform_update. intros [f d t tr]. unfold set_dirs, overlay, canon. cbn.
  rewrite (left_id_L ∅ (∪) f), (right_id_L ∅ (∪) {[p]}), app_nil_r. reflexivity.
Qed.

Lemma uniform_set_temp (g : gmap string string -> gmap string string) :
  uniform (update (set_temp g)).
Proof.
  apply uniform_update. intros [f d t tr]. unfold set_temp, overlay, canon. cbn.
  rewrite (left_id_L ∅ (∪) f), (left_id_L ∅ (∪) d), app_nil_r. reflexivity.
Qed.

Lemma uniform_get_temp {A} (g : gmap string string -> A) :
  uniform (get (fun w => g (temp w))).
Proof. intros w. unfold get. cbn. now rewrite overlay_canon. Qed.

Ltac uniform_step :=
  first
    [ apply uniform_ret | apply uniform_raise | apply uniform_emit
    | apply uniform_insert_file | apply uniform_add_dir | apply uniform_set_temp
    | apply (uniform_get_temp (fun t => t !! _))
    | apply uniform_bind; [| intros ?]
    | apply uniform_try; [| intros ?]
    | match goal with
      | |- uniform (match ?x with _ => _ end) => destruct x
      | |- uniform (if ?b then _ else _) => destruct b
      end ].

Lemma uniform_write_file (env : Env) (p c : string) : uniform (write_file env p c).
Proof. unfold write_file. repeat uniform_step. Qed.

Lemma uniform_write_chunks (p : string) (cs : list string) : uniform (write_chunks p cs).
Proof.
  induction cs as [|c cs IH]; cbn [write_chunks]; [apply uniform_ret |].
  apply uniform_bind; [| intros _; exact IH].
  unfold temp_append. repeat uniform_step.
Qed.

Lemma uniform_detect_media_type (env : Env) (url : string) :
  uniform (detect_media_type env url).
Proof.
  unfold detect_media_type, requests_head_content_type. repeat uniform_step.
Qed.

Lemma uniform_download_file (env : Env) (url dest : string) :
  uniform (download_file env url dest).
Proof.
  unfold download_file, requests_get_checked, temp_open, stream_end.
  repeat first [ apply uniform_detect_media_type | apply uniform_write_chunks
               | uniform_step ].
Qed.

Lemma uniform_persist_and_embed (env : Env)
    (job mt media embed tmp frame : string) :
  uniform (persist_and_embed env job mt media embed tmp frame).
Proof.
  unfold persist_and_embed, extract_frame, extract_image, extract_video,
    embed_image_clip_to_npy, swallow.
  repeat first [ apply uniform_write_file | uniform_step ].
Qed.

Lemma uniform_fetch_and_embed (env : Env) (url job media embed tdir : string) :
  uniform (fetch_and_embed env url job media embed tdir).
Proof.
  unfold fetch_and_embed.
  apply uniform_bind; [apply uniform_download_file | intros fetched].
  cbv zeta. destruct (truthy _); [apply uniform_ret | apply uniform_persist_and_embed].
Qed.

Lemma uniform_with_tempdir {A} (env : Env) (body : string -> M A) :
  (forall tdir, uniform (body tdir)) -> uniform (with_tempdir env body).
Proof.
  intros Hbody w. unfold with_tempdir.
  change (set_temp (fun _ => ∅) (canon (temp w))) with (canon ∅).
  rewrite (Hbody (tmpdir env) (set_temp (fun _ => ∅) w)).
  cbn [set_temp temp fst snd value world overlay files dirs trace].
  reflexivity.
Qed.

Lemma uniform_process_url (env : Env) (index : Z) (row : Row) (col : option string)
    (out_root : string) :
  uniform (process_url env index row col out_root false).
Proof.
  unfold process_url.
  destruct (negb (truthy (row_url col row))); [apply uniform_ret |].
  cbv zeta. unfold ensure_dir, swallow.
  repeat first [ apply uniform_write_file
               | apply uniform_with_tempdir; intros tdir; apply uniform_fetch_and_embed
               | uniform_step ].
Qed.

Lemma written_set_temp (env : Env) (p c : string) (g : gmap string string -> gmap string string)
    (w : World) :
  written env p c (set_temp g w) = set_temp g (written env p c w).
Proof.
  unfold written, swallow, write_file.
  unfold try_except, bind, emit, update, get, ret, raise, world.
  cbn. destruct (open_error env p); reflexivity.
Qed.

(** Without [overwrite], the value of [process_url] and the files it leaves do
    not depend on the temporary directory it is started with. *)
Lemma process_url_temp_irrelevant (env : Env) (index : Z) (row : Row)
    (col : option string) (out_root : string) (t : gmap string string) :
  value (process_url env index row col out_root false (canon t))
    = value (process_url env index row col out_root false (canon ∅)) /\
  files (world (process_url env index row col out_root false (canon t)))
    = files (world (process_url env index row col out_root false (canon ∅))).
Proof.
  destruct (truthy (row_url col row)) eqn:Hurl.
  - rewrite !(process_url_phases _ _ _ _ _ _ _ Hurl), !with_tempdir_run.
    assert (H : set_temp (fun _ => ∅)
                  (provenanced env out_root index false col row (canon t))
                = set_temp (fun _ => ∅)
                    (provenanced env out_root index false col row (canon ∅))).
    { unfold provenanced, cleaned.
      change (world (ensure_dir (job_dir_of out_root index) (canon t)))
        with (set_temp (fun _ => t)
                (world (ensure_dir (job_dir_of out_root index) (canon ∅)))).
      rewrite !written_set_temp. reflexivity. }
    rewrite H. split; reflexivity.
  - unfold process_url. rewrite Hurl. split; reflexivity.
Qed.

(** Without [overwrite], a run lays the files it writes over the store; what
    it writes, and what it returns, is the same in every world. *)
Lemma process_url_overlay (env : Env) (index : Z) (row : Row) (col : option string)
    (out_root : string) (w : World) :
  let bare := process_url env index row col out_root false (canon ∅) in
  value (process_url env index row col out_root false w) = value bare /\
  files (world (process_url env index row col out_root false w))
    = files (world bare) ∪ files w.
Proof.
  intros bare.
  destruct (process_url_temp_irrelevant env index row col out_root (temp w)) as [Hv Hf].
  rewrite (uniform_process_url env index row col out_root w).
  cbn [value world fst snd overlay files]. rewrite Hv, Hf. split; reflexivity.
Qed.

(** [process_url] changes no file outside the four artifacts of its job. *)
Lemma process_url_frame_plain (env : Env) (index : Z) (row : Row) (col : option string)
    (out_root : string) (w : World) (p : string) :
  p ∉ artifact_paths out_root index ->
  files (world (process_url env index row col out_root false w)) !! p = files w !! p.
Proof.
  intros Hp.
  destruct (process_url_overlay env index row col out_root w) as [_ Hf].
  destruct (truthy (row_url col row)) eqn:Hurl.
  - destruct (process_url_run env index row col out_root false w Hurl)
      as (res & w' & heads & rest & Hrun & _ & _ & _ & Hother & _).
    rewrite Hrun. cbn [world snd].
    rewrite elem_of_artifact_paths in Hp.
    rewrite Hother by (intros ->; apply Hp; tauto).
    rewrite provenanced_files.
    rewrite !bool_decide_eq_false_2 by (intros ->; apply Hp; tauto).
    now rewrite cleaned_files.
  - unfold process_url. now rewrite Hurl.
Qed.

(** What [process_url] returns does not depend on the world it starts in. *)
Lemma process_url_value_any_world (env : Env) (index : Z) (row : Row)
    (col : option string) (out_root : string) (overwrite : bool) (w w' : World) :
  value (process_url env index row col out_root overwrite w)
    = value (process_url env index row col out_root overwrite w').
Proof.
  destruct (truthy (row_url col row)) eqn:Hurl.
  - rewrite !(process_url_phases _ _ _ _ _ _ _ Hurl), !with_tempdir_run.
    cbn [value fst].
    rewrite (uniform_fetch_and_embed env (row_url col row) (job_id_of index)
               (media_type_path_of out_root index) (first_embed_path_of out_root index)
               (tmpdir env)
               (set_temp (fun _ => ∅) (provenanced env out_root index overwrite col row w))).
    rewrite (uniform_fetch_and_embed env (row_url col row) (job_id_of index)
               (media_type_path_of out_root index) (first_embed_path_of out_root index)
               (tmpdir env)
               (set_temp (fun _ => ∅) (provenanced env out_root index overwrite col row w'))).
    reflexivity.
  - unfold process_url. rewrite Hurl. reflexivity.
Qed.

Lemma filter_silent (f : Event -> bool) (evs : list Event) :
  Forall (fun ev => f ev = false) evs -> List.filter f evs = [].
Proof.
  induction 1 as [|ev evs Hev _ IH]; [reflexivity |].
  cbn. now rewrite Hev.
Qed.

(** The loop is the rounds [row_step] one after the other, and each line it
    prints is the line of what [process_url] returns for that row. *)
Lemma run_rows_lines (env : Env) (args : Args) (rows : list Row) (indices : list Z) :
  Forall (fun i => 0 <= i < Z.of_nat (length rows)) indices ->
  forall (successes failures : nat) (w : World),
  exists counts evs,
    run_rows env args rows indices successes failures w
      = (Ok counts, fold_left (row_step env args rows) indices w) /\
    trace (fold_left (row_step env args rows) indices w) = trace w ++ evs /\
    Forall2 (fun i ev =>
               exists row res,
                 rows !! Z.to_nat i = Some row /\
                 (forall w', value (process_url env i row (Some (arg_column args))
                                      (arg_out_dir args) (arg_overwrite args) w') = Ok res) /\
                 ev = report_line i res)
      indices (List.filter is_report evs).
Proof.
  induction 1 as [|i rest Hi _ IH]; intros s f w.
  - exists (s, f), []. cbn. rewrite app_nil_r. repeat split. constructor.
  - cbn [run_rows fold_left].
    destruct (rows !! Z.to_nat i) as [row |] eqn:Hrow.
    2:{ apply lookup_ge_None in Hrow. lia. }
    destruct (process_url_total env i row (Some (arg_column args)) (arg_out_dir args)
                (arg_overwrite args) w)
      as ([[job n] err] & w1 & evs1 & Hrun & _ & _ & Ht1 & Hsilent).
    assert (Hstep : row_step env args rows w i = log (report_line i (job, n, err)) w1).
    { unfold row_step. rewrite Hrow, Hrun. reflexivity. }
    assert (Hany : forall w', value (process_url env i row (Some (arg_column args))
                                       (arg_out_dir args) (arg_overwrite args) w')
                              = Ok (job, n, err)).
    { intros w'. rewrite (process_url_value_any_world _ _ _ _ _ _ w' w), Hrun.
      reflexivity. }
    rewrite Hstep. erewrite bind_ok by exact Hrun. cbv beta iota.
    unfold report_line in *.
    destruct (truthy (or_empty err)) eqn:Herr; erewrite bind_ok by reflexivity.
    + destruct (IH s (S f) (log (EvRowFail i job (or_empty err)) w1))
        as (counts & evs & Hrest & Ht & Hlines).
      exists counts, (evs1 ++ EvRowFail i job (or_empty err) :: evs).
      split; [exact Hrest |].
      split; [rewrite Ht; cbn [log trace]; rewrite Ht1, <- !app_assoc; reflexivity |].
      rewrite List.filter_app, (filter_silent _ _ Hsilent). cbn [app List.filter is_report].
      constructor; [| exact Hlines].
      exists row, (job, n, err). split; [exact Hrow |]. split; [exact Hany |].
      now rewrite Herr.
    + destruct (IH (S s) f (log (EvRowOk i job n) w1))
        as (counts & evs & Hrest & Ht & Hlines).
      exists counts, (evs1 ++ EvRowOk i job n :: evs).
      split; [exact Hrest |].
      split; [rewrite Ht; cbn [log trace]; rewrite Ht1, <- !app_assoc; reflexivity |].
      rewrite List.filter_app, (filter_silent _ _ Hsilent). cbn [app List.filter is_report].
      constructor; [| exact Hlines].
      exists row, (job, n, err). split; [exact Hrow |]. split; [exact Hany |].
      now rewrite Herr.
Qed.

(** ** Claims *)

(** C1, at the failing input. When the primary transport raises,
    [download_file] returns the classifier's type with the text of that
    exception: [urlopen] is never called and nothing is written to the
    destination, whatever the secondary transport would have delivered. *)
Theorem primary_failure_is_final (env : Env) (url dest : string) (w : World) (e : string) :
  requests_get env url = Raise e ->
  value (download_file env url dest w) = Ok (classified env url, Some e) /\
  temp (world (download_file env url dest w)) = temp w /\
  exists heads,
    trace (world (download_file env url dest w)) = trace w ++ EvGet url :: heads /\
    Forall (fun ev => ev = EvHead url) heads.
Proof.
  intros Hget.
  unfold download_file, requests_get_checked.
  unfold try_except, bind, emit, update, ret, raise.
  rewrite Hget. cbn -[detect_media_type].
  step_detect; cbn; (split; [reflexivity |]); (split; [reflexivity |]);
    rewrite <- ?app_assoc; eexists; (split; [reflexivity |]); repeat constructor.
Qed.

(** C1, witness: with the primary transport down and urllib able to fetch
    the file, the row's download fails; the urllib block, run by hand on the
    same input, succeeds. *)
Lemma primary_failure_is_final_witness :
  (value (download_file Scenario.primary_down "https://x/a.jpg" "/tmp/tmpk3x9/a.jpg"
            empty_world)
     = Ok ("image", Some "GET failed: network is unreachable") /\
   temp (world (download_file Scenario.primary_down "https://x/a.jpg"
                  "/tmp/tmpk3x9/a.jpg" empty_world)) = ∅ /\
   exists heads,
     trace (world (download_file Scenario.primary_down "https://x/a.jpg"
                     "/tmp/tmpk3x9/a.jpg" empty_world))
       = [] ++ EvGet "https://x/a.jpg" :: heads /\
     Forall (fun ev => ev = EvHead "https://x/a.jpg") heads) /\
  value (urllib_fallback Scenario.primary_down "https://x/a.jpg" "/tmp/tmpk3x9/a.jpg"
           empty_world)
    = Ok ("image", None).
Proof.
  split; [| reflexivity].
  exact (primary_failure_is_final Scenario.primary_down "https://x/a.jpg"
           "/tmp/tmpk3x9/a.jpg" empty_world "GET failed: network is unreachable"
           eq_refl).
Defined.

(** C2, the defect. Without [overwrite], [process_url] runs the whole
    pipeline on a row that has a URL, whatever the job directory holds: it
    returns what it returns in an empty store; it removes nothing, opens
    [url.txt] and [metadata.txt] for writing and then fetches the URL, and
    when the download reports no error it goes on to open [media_type.txt]
    and to embed. The two provenance files hold the URL and the metadata of
    this run and [media_type.txt] the type of this download (when they
    open), and after a successful run the embedding artifact holds the
    vector just computed, whatever it held before. Only after a failed
    download [media_type.txt], and after any failure the embedding, are as
    they were. No file outside the four artifacts of the job is changed. *)
Theorem rerun_rewrites_existing_job (env : Env) (index : Z) (row : Row)
    (col : option string) (out_root : string) (w : World) :
  truthy (row_url col row) = true ->
  let url := row_url col row in
  let media := media_type_path_of out_root index in
  let embed := first_embed_path_of out_root index in
  let run := process_url env index row col out_root false w in
  let fetched := download_value env url (tmp_path_of (tmpdir env) url) in
  (exists heads rest,
     trace (world run) =
       trace w ++ [EvMkdir (job_dir_of out_root index);
                   EvOpen (url_txt_path_of out_root index);
                   EvOpen (metadata_txt_path_of out_root index);
                   EvGet url] ++ heads ++ rest /\
     Forall (fun ev => ev = EvHead url) heads /\
     if truthy (or_empty (snd fetched)) then rest = []
     else exists opens, rest = EvOpen media :: opens /\
                        Forall (fun ev => ev = EvOpen embed) opens) /\
  (open_error env (url_txt_path_of out_root index) = None ->
     files (world run) !! url_txt_path_of out_root index = Some url) /\
  (open_error env (metadata_txt_path_of out_root index) = None ->
     files (world run) !! metadata_txt_path_of out_root index
       = Some (metadata_text col row)) /\
  (truthy (or_empty (snd fetched)) = false -> open_error env media = None ->
     files (world run) !! media = Some (fst fetched)) /\
  (truthy (or_empty (snd fetched)) = true ->
     files (world run) !! media = files w !! media) /\
  (exists res,
     value run = Ok res /\
     value (process_url env index row col out_root false (canon ∅)) = Ok res /\
     (snd res = None ->
        exists png v, clip_embed env png = Ok v /\ files (world run) !! embed = Some v) /\
     (snd res <> None -> files (world run) !! embed = files w !! embed)) /\
  (forall p, p ∉ artifact_paths out_root index ->
     files (world run) !! p = files w !! p).
Proof.
  intros Hurl url media embed run fetched.
  destruct (artifact_paths_neq out_root index) as (N1 & N2 & N3 & N4 & N5 & N6).
  destruct (process_url_run env index row col out_root false w Hurl)
    as (res & w' & heads & rest & Hrun & _ & _ & _ & Hother & Ht & Hheads & _
        & Hfail & Hok & Hcase).
  fold url media embed in Hother, Ht, Hheads, Hfail, Hok, Hcase.
  fold fetched in Hcase. cbv zeta in Hcase.
  assert (Hprov : forall p,
            files (provenanced env out_root index false col row w) !! p =
              if bool_decide (p = url_txt_path_of out_root index) then
                match open_error env p with
                | None => Some url
                | Some _ => files w !! p
                end
              else if bool_decide (p = metadata_txt_path_of out_root index) then
                match open_error env p with
                | None => Some (metadata_text col row)
                | Some _ => files w !! p
                end
              else files w !! p).
  { intros p. rewrite provenanced_files, cleaned_files. reflexivity. }
  pose proof (proj1 (process_url_overlay env index row col out_root w)) as Hbare.
  cbv zeta in Hbare.
  subst run. rewrite Hrun in Hbare |- *. cbn [value world fst snd] in Hbare |- *.
  split; [| split; [| split; [| split; [| split; [| split]]]]].
  - destruct (cleaned_trace env out_root index false w) as (removals & Hc & _ & Hnil & _).
    rewrite (Hnil eq_refl) in Hc.
    exists heads, rest.
    split; [rewrite Ht, provenanced_trace, Hc, <- !app_assoc; reflexivity |].
    split; [exact Hheads |].
    destruct (truthy (or_empty (snd fetched)));
      [now destruct Hcase as (_ & _ & ->) | exact (proj2 Hcase)].
  - intros Hopen. rewrite Hother by (subst media embed; congruence).
    rewrite Hprov, bool_decide_eq_true_2 by reflexivity. now rewrite Hopen.
  - intros Hopen. rewrite Hother by (subst media embed; congruence).
    rewrite Hprov, bool_decide_eq_false_2 by congruence.
    rewrite bool_decide_eq_true_2 by reflexivity. now rewrite Hopen.
  - intros Herr Hopen. rewrite Herr in Hcase. destruct Hcase as (Hm & _).
    rewrite Hm, Hopen. reflexivity.
  - intros Herr. rewrite Herr in Hcase. destruct Hcase as (_ & Hfiles & _).
    rewrite Hfiles, Hprov. subst media.
    now rewrite !bool_decide_eq_false_2 by congruence.
  - exists res. split; [reflexivity |]. split; [now symmetry |].
    split; [exact Hok |].
    intros Hsome. rewrite (Hfail Hsome), Hprov. subst embed.
    now rewrite !bool_decide_eq_false_2 by congruence.
  - intros p Hp.
    pose proof (process_url_frame_plain env index row col out_root w p Hp) as Hframe.
    rewrite Hrun in Hframe. exact Hframe.
Qed.

(** C2, at the failing input: job 3 is complete, with a video type and an
    embedding; the row is processed again without [overwrite] while the
    server delivers an image. The run replaces both artifacts. *)
Lemma rerun_rewrites_existing_job_witness :
  let env := Scenario.serving "https://x/a.jpg" "image/jpeg" ["JFIF"] in
  let run := process_url env 3 Scenario.case_a_row (Some "tvc") "batch_outputs" false
               Scenario.complete_job in
  files Scenario.complete_job !! "batch_outputs/url_0003/media_type.txt" = Some "video" /\
  files (world run) !! "batch_outputs/url_0003/media_type.txt" = Some "image" /\
  files Scenario.complete_job !! "batch_outputs/url_0003/first_frame.npy"
    = Some "CLIP<PNG<old>>" /\
  files (world run) !! "batch_outputs/url_0003/first_frame.npy" = Some "CLIP<PNG<JFIF>>".
Proof.
  intros env run.
  split; [reflexivity |]. split; [| split; [reflexivity | vm_compute; reflexivity]].
  destruct (rerun_rewrites_existing_job env 3 Scenario.case_a_row (Some "tvc")
              "batch_outputs" Scenario.complete_job eq_refl)
    as (_ & _ & _ & Hmedia & _).
  exact (Hmedia eq_refl eq_refl).
Defined.

(** C2, two runs in a row: the same row is processed twice without
    [overwrite]; between the two runs the server replaces the video behind
    the URL by an image. The second run succeeds, and both [media_type.txt]
    and the embedding artifact of the complete job hold other bytes than
    before. *)
Lemma rerun_replaces_embedding_bytes :
  let row := [("tvc", Some "https://x/watch"); ("id", Some "7")] in
  let run content_type body :=
    process_url (Scenario.serving "https://x/watch" content_type body)
      3 row (Some "tvc") "batch_outputs" false in
  let w1 := world (run "video/mp4" ["ftyp-1"] empty_world) in
  let w2 := world (run "image/jpeg" ["JFIF-2"] w1) in
  value (run "video/mp4" ["ftyp-1"] empty_world) = Ok ("url_0003", 1%nat, None) /\
  files w1 !! "batch_outputs/url_0003/media_type.txt" = Some "video" /\
  files w1 !! "batch_outputs/url_0003/first_frame.npy"
    = Some "CLIP<PNG<frame 0 of ftyp-1>>" /\
  value (run "image/jpeg" ["JFIF-2"] w1) = Ok ("url_0003", 1%nat, None) /\
  files w2 !! "batch_outputs/url_0003/media_type.txt" = Some "image" /\
  files w2 !! "batch_outputs/url_0003/first_frame.npy" = Some "CLIP<PNG<JFIF-2>>".
Proof.
  intros row run w1 w2. repeat split; vm_compute; reflexivity.
Qed.

(** C3 (amended). [process_url], given a row whose URL cell is blank, returns
    the failure [no_url_in_row] with zero frames and leaves the world as it
    was (no directory is created); the loop of [main] counts such a result as
    a failure, prints it and goes on with the next index. [read_urls] keeps no
    such row, so they never reach the loop. *)
Theorem blank_url_row_outcome (env : Env) (args : Args) (i : Z) (row : Row)
    (rows table : list Row) (rest : list Z) (successes failures : nat) (w : World) :
  truthy (row_url (Some (arg_column args)) row) = false ->
  rows !! Z.to_nat i = Some row ->
  process_url env i row (Some (arg_column args)) (arg_out_dir args) (arg_overwrite args) w
    = (Ok (job_id_of i, 0%nat, Some "no_url_in_row"), w) /\
  run_rows env args rows (i :: rest) successes failures w
    = run_rows env args rows rest successes (S failures)
        (log (EvRowFail i (job_id_of i) "no_url_in_row") w) /\
  row ∉ read_urls table (Some (arg_column args)).
Proof.
  intros Hblank Hrow.
  assert (Hp : process_url env i row (Some (arg_column args)) (arg_out_dir args)
                 (arg_overwrite args) w
               = (Ok (job_id_of i, 0%nat, Some "no_url_in_row"), w)).
  { unfold process_url. now rewrite Hblank. }
  split; [exact Hp |]. split.
  - cbn [run_rows]. rewrite Hrow.
    erewrite bind_ok by exact Hp. reflexivity.
  - unfold read_urls. rewrite list_elem_of_In, List.filter_In.
    intros [_ H]. congruence.
Qed.

(** C3, witness. *)
Lemma blank_url_row_outcome_witness :
  let args := {| arg_input := "rows.csv"; arg_column := "tvc";
                 arg_out_dir := "batch_outputs"; arg_start := 0;
                 arg_end := None; arg_overwrite := true |} in
  process_url Scenario.offline 0 Scenario.blank_row (Some "tvc") "batch_outputs" true
    Scenario.complete_job
    = (Ok ("url_0000", 0%nat, Some "no_url_in_row"), Scenario.complete_job) /\
  run_rows Scenario.offline args [Scenario.blank_row] [0] 0 0 Scenario.complete_job
    = (Ok (0%nat, 1%nat),
       log (EvRowFail 0 "url_0000" "no_url_in_row") Scenario.complete_job) /\
  Scenario.blank_row ∉ read_urls [Scenario.blank_row; Scenario.case_a_row] (Some "tvc").
Proof.
  intros args.
  exact (blank_url_row_outcome Scenario.offline args 0 Scenario.blank_row
           [Scenario.blank_row] [Scenario.blank_row; Scenario.case_a_row] [] 0 0
           Scenario.complete_job eq_refl eq_refl).
Defined.

(** C3, counterexample: an input whose only row has a blank URL cell makes
    [main] exit with status 1 without reporting any row; and with a second,
    good row the run reports one success and no failure: the blank row is
    not counted. *)
Lemma blank_url_row_not_counted :
  let args := {| arg_input := "rows.csv"; arg_column := "tvc";
                 arg_out_dir := "batch_outputs"; arg_start := 0;
                 arg_end := None; arg_overwrite := false |} in
  let env table := Scenario.with_csv
                     (fun p => if String.eqb p "rows.csv" then Some table else None)
                     (Scenario.serving "https://x/a.jpg" "image/jpeg" ["JFIF"]) in
  (value (main (env [Scenario.blank_row]) args empty_world) = Ok 1 /\
   trace (world (main (env [Scenario.blank_row]) args empty_world))
     = [EvMkdir "batch_outputs"; EvStderr "No URLs to process in the given range."]) /\
  (value (main (env [Scenario.blank_row; Scenario.case_a_row]) args empty_world) = Ok 0 /\
   trace (world (main (env [Scenario.blank_row; Scenario.case_a_row]) args empty_world))
     = [EvMkdir "batch_outputs"; EvStart 0 1 1;
        EvMkdir "batch_outputs/url_0000";
        EvOpen "batch_outputs/url_0000/url.txt";
        EvOpen "batch_outputs/url_0000/metadata.txt";
        EvGet "https://x/a.jpg";
        EvOpen "batch_outputs/url_0000/media_type.txt";
        EvOpen "batch_outputs/url_0000/first_frame.npy";
        EvRowOk 0 "url_0000" 1;
        EvDone 1 0]).
Proof.
  intros args env. split; split; vm_compute; reflexivity.
Qed.

(** C4 (amended). For every row that has a URL, [process_url] tries to write
    [url.txt] and then [metadata.txt] before the download request, and nothing
    before them touches the network; each of the two files whose opening is
    not refused holds the row's URL, respectively its metadata lines, when
    [process_url] returns, whatever happens in the later stages. *)
Theorem provenance_before_network (env : Env) (index : Z) (row : Row)
    (col : option string) (out_root : string) (overwrite : bool) (w : World) :
  truthy (row_url col row) = true ->
  let w' := world (process_url env index row col out_root overwrite w) in
  (exists before later,
     trace w' = trace w ++ before
                  ++ [EvOpen (url_txt_path_of out_root index);
                      EvOpen (metadata_txt_path_of out_root index);
                      EvGet (row_url col row)]
                  ++ later /\
     Forall (fun ev => is_network ev = false) before) /\
  (open_error env (url_txt_path_of out_root index) = None ->
     files w' !! url_txt_path_of out_root index = Some (row_url col row)) /\
  (open_error env (metadata_txt_path_of out_root index) = None ->
     files w' !! metadata_txt_path_of out_root index = Some (metadata_text col row)).
Proof.
  intros Hurl w'.
  destruct (artifact_paths_neq out_root index) as (N1 & N2 & N3 & N4 & N5 & N6).
  destruct (process_url_run env index row col out_root overwrite w Hurl)
    as (res & w1 & heads & rest & Hrun & _ & _ & _ & Hother & Ht & _).
  subst w'. rewrite Hrun. cbn [world snd].
  destruct (cleaned_trace env out_root index overwrite w)
    as (removals & Hc & Hrem & _ & _).
  split; [| split].
  - exists (EvMkdir (job_dir_of out_root index) :: removals), (heads ++ rest).
    split.
    + rewrite Ht, provenanced_trace, Hc, <- !app_assoc. reflexivity.
    + constructor; [reflexivity |].
      eapply Forall_impl; [exact Hrem |]. intros ev (p & -> & _). reflexivity.
  - intros Hopen. rewrite Hother by congruence.
    rewrite provenanced_files, bool_decide_eq_true_2 by reflexivity.
    now rewrite Hopen.
  - intros Hopen. rewrite Hother by congruence.
    rewrite provenanced_files, bool_decide_eq_false_2 by congruence.
    rewrite bool_decide_eq_true_2 by reflexivity.
    now rewrite Hopen.
Qed.

(** C4, witness. *)
Lemma provenance_before_network_witness :
  let w' := world (process_url Scenario.offline 3 Scenario.case_a_row (Some "tvc")
                     "batch_outputs" false empty_world) in
  (exists before later,
     trace w' = [] ++ before
                  ++ [EvOpen "batch_outputs/url_0003/url.txt";
                      EvOpen "batch_outputs/url_0003/metadata.txt";
                      EvGet "https://x/a.jpg"]
                  ++ later /\
     Forall (fun ev => is_network ev = false) before) /\
  files w' !! "batch_outputs/url_0003/url.txt" = Some "https://x/a.jpg" /\
  files w' !! "batch_outputs/url_0003/metadata.txt" = Some ("id=7" +:+ nl).
Proof.
  intros w'.
  destruct (provenance_before_network Scenario.offline 3 Scenario.case_a_row (Some "tvc")
              "batch_outputs" false empty_world eq_refl) as (Htrace & Hurl & Hmeta).
  split; [exact Htrace |]. split; [exact (Hurl eq_refl) | exact (Hmeta eq_refl)].
Defined.

(** C4, counterexample: [url.txt] cannot be opened for writing; the exception
    is swallowed, the download is made, the job even succeeds, and there is
    no [url.txt]. *)
Lemma refused_url_txt_missing_after_fetch :
  let env := Scenario.with_open_error
               (Scenario.refuse "batch_outputs/url_0003/url.txt")
               (Scenario.serving "https://x/a.jpg" "image/jpeg" ["JFIF"]) in
  let r := process_url env 3 Scenario.case_a_row (Some "tvc") "batch_outputs" false
             empty_world in
  value r = Ok ("url_0003", 1%nat, None) /\
  EvGet "https://x/a.jpg" ∈ trace (world r) /\
  files (world r) !! "batch_outputs/url_0003/url.txt" = None.
Proof.
  intros env r. split; [reflexivity |]. split; [| reflexivity].
  vm_compute. apply list_elem_of_In. cbn. tauto.
Qed.

(** C5 (amended). With [overwrite] set, on a row that has a URL,
    [process_url] calls [os.remove] on each of the four artifacts that exists,
    and all these calls come before every other action on the job except the
    creation of its directory. An artifact whose removal is not refused is, at
    the end, either absent or what this very run wrote; in particular the
    embedding artifact is absent whenever the run ends in a failure. *)
Theorem overwrite_clears_before_writing (env : Env) (index : Z) (row : Row)
    (col : option string) (out_root : string) (w : World) :
  truthy (row_url col row) = true ->
  let url := row_url col row in
  let r := process_url env index row col out_root true w in
  exists res removals later,
    value r = Ok res /\
    trace (world r) =
      trace w ++ EvMkdir (job_dir_of out_root index) :: removals ++ later /\
    Forall (fun ev => exists p, ev = EvRemove p /\ p ∈ artifact_paths out_root index)
      removals /\
    Forall (fun ev => is_remove ev = false) later /\
    (forall p, p ∈ artifact_paths out_root index -> is_Some (files w !! p) ->
               EvRemove p ∈ removals) /\
    (remove_error env (url_txt_path_of out_root index) = None ->
       files (world r) !! url_txt_path_of out_root index = None \/
       files (world r) !! url_txt_path_of out_root index = Some url) /\
    (remove_error env (metadata_txt_path_of out_root index) = None ->
       files (world r) !! metadata_txt_path_of out_root index = None \/
       files (world r) !! metadata_txt_path_of out_root index
         = Some (metadata_text col row)) /\
    (remove_error env (media_type_path_of out_root index) = None ->
       files (world r) !! media_type_path_of out_root index = None \/
       exists mt err,
         value (download_file env url (tmp_path_of (tmpdir env) url) w) = Ok (mt, err) /\
         files (world r) !! media_type_path_of out_root index = Some mt) /\
    (remove_error env (first_embed_path_of out_root index) = None ->
       (snd res <> None -> files (world r) !! first_embed_path_of out_root index = None) /\
       (snd res = None ->
          exists png v, clip_embed env png = Ok v /\
            files (world r) !! first_embed_path_of out_root index = Some v)).
Proof.
  intros Hurl url r.
  destruct (artifact_paths_neq out_root index) as (N1 & N2 & N3 & N4 & N5 & N6).
  destruct (process_url_run env index row col out_root true w Hurl)
    as (res & w1 & heads & rest & Hrun & _ & _ & _ & Hother & Ht & Hheads & _
        & Hfail & Hok & Hcase).
  fold url in Ht, Hheads, Hcase.
  subst r. rewrite Hrun. cbn [value world fst snd].
  destruct (cleaned_trace env out_root index true w)
    as (removals & Hc & Hrem & _ & Hall).
  exists res, removals,
    ([EvOpen (url_txt_path_of out_root index);
      EvOpen (metadata_txt_path_of out_root index)] ++ EvGet url :: heads ++ rest).
  split; [reflexivity |].
  split; [rewrite Ht, provenanced_trace, Hc, <- !app_assoc; reflexivity |].
  split; [exact Hrem |].
  assert (Hin : forall p, p ∈ artifact_paths out_root index ->
                  bool_decide (p ∈ artifact_paths out_root index) = true).
  { intros p Hp. now apply bool_decide_eq_true_2. }
  cbv zeta in Hcase.
  split; [| split; [exact (Hall eq_refl) | split; [| split; [| split]]]].
  - repeat (constructor; [reflexivity |]).
    apply Forall_app. split.
    { eapply Forall_impl; [exact Hheads |]. intros ev ->. reflexivity. }
    match type of Hcase with context [if ?b then _ else _] => destruct b end.
    + destruct Hcase as (_ & _ & ->). constructor.
    + destruct Hcase as (_ & opens & -> & Hopens).
      constructor; [reflexivity |].
      eapply Forall_impl; [exact Hopens |]. intros ev ->. reflexivity.
  - intros Hrm. rewrite Hother by congruence.
    rewrite provenanced_files, bool_decide_eq_true_2 by reflexivity.
    destruct (open_error env (url_txt_path_of out_root index));
      [left | right; reflexivity].
    rewrite cleaned_files, Hin by (apply elem_of_artifact_paths; tauto).
    cbn [andb]. now rewrite Hrm.
  - intros Hrm. rewrite Hother by congruence.
    rewrite provenanced_files, bool_decide_eq_false_2 by congruence.
    rewrite bool_decide_eq_true_2 by reflexivity.
    destruct (open_error env (metadata_txt_path_of out_root index));
      [left | right; reflexivity].
    rewrite cleaned_files, Hin by (apply elem_of_artifact_paths; tauto).
    cbn [andb]. now rewrite Hrm.
  - intros Hrm.
    assert (Hclean : files (provenanced env out_root index true col row w)
                       !! media_type_path_of out_root index = None).
    { rewrite provenanced_files, !bool_decide_eq_false_2 by congruence.
      rewrite cleaned_files, Hin by (apply elem_of_artifact_paths; tauto).
      cbn [andb]. now rewrite Hrm. }
    rewrite download_file_value.
    destruct (download_value env url (tmp_path_of (tmpdir env) url)) as [mt err].
    cbn [fst snd] in Hcase.
    destruct (truthy (or_empty err)) eqn:Herr.
    + left. destruct Hcase as (_ & -> & _). exact Hclean.
    + destruct Hcase as (Hmedia & _). rewrite Hmedia.
      destruct (open_error env (media_type_path_of out_root index));
        [left; exact Hclean | right; eauto].
  - intros Hrm.
    assert (Hclean : files (provenanced env out_root index true col row w)
                       !! first_embed_path_of out_root index = None).
    { rewrite provenanced_files, !bool_decide_eq_false_2 by congruence.
      rewrite cleaned_files, Hin by (apply elem_of_artifact_paths; tauto).
      cbn [andb]. now rewrite Hrm. }
    split; [| exact Hok].
    intros Hres. rewrite Hfail by exact Hres. exact Hclean.
Qed.

(** C5, witness: an overwrite of a complete job while the network is down;
    all four artifacts are removed first and no embedding is left. *)
Lemma overwrite_clears_before_writing_witness :
  let r := process_url Scenario.offline 3 Scenario.case_a_row (Some "tvc")
             "batch_outputs" true Scenario.complete_job in
  value r = Ok ("url_0003", 0%nat,
                Some "download_error: GET failed: network is unreachable") /\
  files (world r) !! "batch_outputs/url_0003/first_frame.npy" = None.
Proof.
  intros r. split; [reflexivity |].
  destruct (overwrite_clears_before_writing Scenario.offline 3 Scenario.case_a_row
              (Some "tvc") "batch_outputs" Scenario.complete_job eq_refl)
    as (res & removals & later & Hres & _ & _ & _ & _ & _ & _ & _ & Hembed).
  apply (Hembed eq_refl).
  change (value r) with
    (Ok (A := Result) ("url_0003", 0%nat,
         Some "download_error: GET failed: network is unreachable")) in Hres.
  injection Hres as <-. discriminate.
Defined.

(** C5, counterexample: the removal of the old embedding is refused, the
    exception is swallowed, the rerun fails in the download, and the old
    embedding is still there beside the new [url.txt]. *)
Lemma refused_removal_keeps_stale_embedding :
  let env := Scenario.with_remove_error
               (Scenario.refuse "batch_outputs/url_0003/first_frame.npy")
               Scenario.offline in
  let r := process_url env 3 Scenario.case_a_row (Some "tvc") "batch_outputs" true
             Scenario.complete_job in
  files Scenario.complete_job !! "batch_outputs/url_0003/first_frame.npy"
    = Some "CLIP<PNG<old>>" /\
  value r = Ok ("url_0003", 0%nat,
                Some "download_error: GET failed: network is unreachable") /\
  files (world r) !! "batch_outputs/url_0003/first_frame.npy" = Some "CLIP<PNG<old>>" /\
  files (world r) !! "batch_outputs/url_0003/media_type.txt" = None.
Proof.
  intros env r. repeat split; vm_compute; reflexivity.
Qed.

(** C6. [detect_media_type] and [download_file] return normally in every
    environment and every world. Classification yields [image] or [video],
    and [video] whenever no extension is recognised and the probe fails or
    its content type names neither kind. A fetch yields a media type and an
    optional error; the error is absent exactly when the transport answered,
    the destination opened and the stream ended cleanly, and every error is
    paired with the classifier's type. *)
Theorem classification_and_fetch_never_raise
    (env : Env) (url dest : string) (w : World) :
  (exists mt,
     value (detect_media_type env url w) = Ok mt /\
     (mt = "image" \/ mt = "video") /\
     (any_in image_exts (path_part url) = false ->
      any_in video_exts (path_part url) = false ->
      (forall ct, requests_head env url = Ok ct ->
                  content_type_media (lower ct) = None) ->
      mt = "video")) /\
  (exists mt err,
     value (download_file env url dest w) = Ok (mt, err) /\
     (mt = "image" \/ mt = "video") /\
     (err = None <->
        exists r, requests_get env url = Ok r /\ open_error env dest = None /\
                  stream_error (resp_body r) = None) /\
     (err <> None -> value (detect_media_type env url w) = Ok mt)).
Proof.
  split.
  - exists (classified env url). split; [apply detect_media_type_value |].
    split; [apply classified_kind |].
    intros Hi Hv Hct. unfold classified, detect_media_type. rewrite Hi, Hv.
    unfold try_except, bind, requests_head_content_type, emit, update, ret, raise, value.
    cbn. destruct (requests_head env url) as [ct | e]; cbn; [| reflexivity].
    now rewrite (Hct ct eq_refl).
  - exists (fst (download_value env url dest)), (snd (download_value env url dest)).
    rewrite <- surjective_pairing. split; [apply download_file_value |].
    rewrite detect_media_type_value. unfold download_value.
    destruct (requests_get env url) as [r | e]; cbn.
    + destruct (open_error env dest) as [eo |]; cbn.
      * split; [apply classified_kind |]. split; [| reflexivity].
        split; [discriminate | intros (r' & _ & H & _); discriminate].
      * destruct (stream_error (resp_body r)) as [es |] eqn:Hs; cbn.
        -- split; [apply classified_kind |]. split; [| reflexivity].
           split; [discriminate |].
           intros (r' & Hr & _ & H). injection Hr as <-. congruence.
        -- split.
           ++ destruct (content_type_media (lower (resp_content_type r))) as [t |] eqn:Ht;
                cbn; [now apply content_type_media_kind in Ht | apply classified_kind].
           ++ split; [| congruence].
              split; [intros _; now exists r | reflexivity].
    + split; [apply classified_kind |]. split; [| reflexivity].
      split; [discriminate | intros (r' & H & _); discriminate].
Qed.

(** C7 (amended). When the download of a row reports no error and the opening
    of [media_type.txt] is not refused, [media_type.txt] holds, when
    [process_url] returns, the type named by the Content-Type header of the
    response if it names one, and the type [detect_media_type] gives for the
    URL otherwise. *)
Theorem media_type_persisted_after_fetch (env : Env) (index : Z) (row : Row)
    (col : option string) (out_root : string) (overwrite : bool) (w w1 : World)
    (mt : string) :
  truthy (row_url col row) = true ->
  let url := row_url col row in
  value (download_file env url (tmp_path_of (tmpdir env) url) w1) = Ok (mt, None) ->
  open_error env (media_type_path_of out_root index) = None ->
  files (world (process_url env index row col out_root overwrite w))
    !! media_type_path_of out_root index = Some mt /\
  exists r,
    requests_get env url = Ok r /\
    match content_type_media (lower (resp_content_type r)) with
    | Some t => mt = t
    | None => value (detect_media_type env url w1) = Ok mt
    end.
Proof.
  intros Hurl url Hdl Hopen.
  rewrite download_file_value in Hdl. injection Hdl as Hdl.
  destruct (process_url_run env index row col out_root overwrite w Hurl)
    as (res & w' & heads & rest & Hrun & _ & _ & _ & _ & _ & _ & _ & _ & _ & Hcase).
  fold url in Hcase. cbv zeta in Hcase. rewrite Hdl in Hcase.
  cbn [fst snd or_empty default truthy] in Hcase.
  destruct Hcase as (Hmedia & _). rewrite Hopen in Hmedia.
  rewrite Hrun. cbn [world snd]. split; [exact Hmedia |].
  unfold download_value in Hdl.
  destruct (requests_get env url) as [r | e]; [| discriminate Hdl].
  exists r. split; [reflexivity |].
  destruct (open_error env (tmp_path_of (tmpdir env) url)); [discriminate Hdl |].
  destruct (stream_error (resp_body r)); [discriminate Hdl |].
  injection Hdl as Hdl. rewrite detect_media_type_value.
  destruct (content_type_media (lower (resp_content_type r))); cbn in Hdl; congruence.
Qed.

(** C7, witness: a URL without extension, served as [Video/MP4]. *)
Lemma media_type_persisted_after_fetch_witness :
  let env := Scenario.serving "https://x/watch?id=1" "Video/MP4" ["ftyp"] in
  files (world (process_url env 3 [("tvc", Some "https://x/watch?id=1")] (Some "tvc")
                  "batch_outputs" false empty_world))
    !! "batch_outputs/url_0003/media_type.txt" = Some "video".
Proof.
  intros env.
  exact (proj1 (media_type_persisted_after_fetch env 3
                  [("tvc", Some "https://x/watch?id=1")] (Some "tvc") "batch_outputs"
                  false empty_world empty_world "video" eq_refl eq_refl eq_refl)).
Defined.

(** C7, counterexample: the job holds [media_type.txt = video] from an
    earlier run; the rerun fetches an image, the opening of [media_type.txt]
    is refused and swallowed, the job succeeds as an image, and
    [media_type.txt] still says [video]. *)
Lemma refused_media_type_keeps_earlier_value :
  let env := Scenario.with_open_error
               (Scenario.refuse "batch_outputs/url_0003/media_type.txt")
               (Scenario.serving "https://x/a.jpg" "image/jpeg" ["JFIF"]) in
  let r := process_url env 3 Scenario.case_a_row (Some "tvc") "batch_outputs" false
             Scenario.complete_job in
  value (download_file env "https://x/a.jpg"
           (tmp_path_of (tmpdir env) "https://x/a.jpg") empty_world)
    = Ok ("image", None) /\
  value r = Ok ("url_0003", 1%nat, None) /\
  files (world r) !! "batch_outputs/url_0003/media_type.txt" = Some "video".
Proof.
  intros env r. repeat split; vm_compute; reflexivity.
Qed.




(** The extensions are searched in the host name too, although line 54 says
    [Check extension in URL path]: the path of
    [https://media.tiffany.com/ad.mp4] has a video extension and no image
    extension, and the URL is classified [image] because [.tif] occurs in the
    host. The amended C8 says nothing about such URLs. *)
Example host_name_decides_classification :
  let url := "https://media.tiffany.com/ad.mp4" in
  url_origin url = "https://media.tiffany.com" /\
  url_path url = "/ad.mp4" /\
  path_has_extension video_exts url /\
  ~ path_has_extension image_exts url /\
  origin_has_extension image_exts url /\
  detect_media_type Scenario.offline url empty_world = (Ok "image", empty_world).
Proof.
  intros url. split; [reflexivity |]. split; [reflexivity |].
  split; [apply any_in_has; reflexivity |].
  split; [intros H; apply any_in_has in H; discriminate H |].
  split; [apply any_in_has; reflexivity | reflexivity].
Qed.

(** C9. With the input file present, [main] exits with status 1, right after
    creating the output directory and before any row is touched, exactly when
    the resolved range has [start >= end] - in particular when no row with a
    URL was read. Otherwise it returns normally with status 0 after handling
    every row of the range once, and the counts it reports are the numbers
    of OK and FAIL lines printed, which add up to the size of the range. The
    world it leaves is the one reached by running [process_url] on the rows
    of the range in increasing order, each followed by its line; and the
    line of a row is FAIL with the reason when [process_url] returns an
    error for that row, and OK with the frame count when it returns none. *)
Theorem main_exit_status (env : Env) (args : Args) (w : World) (table : list Row) :
  csv_rows env (arg_input args) = Some table ->
  let rows := read_urls table (Some (arg_column args)) in
  let start := Z.max 0 (arg_start args) in
  let end_ := resolve_end (arg_end args) (Z.of_nat (length rows)) in
  (rows = [] -> start >= end_) /\
  (start >= end_ ->
     value (main env args w) = Ok 1 /\
     files (world (main env args w)) = files w /\
     trace (world (main env args w)) =
       trace w ++ [EvMkdir (arg_out_dir args);
                   EvStderr "No URLs to process in the given range."]) /\
  (start < end_ ->
     exists evs,
       value (main env args w) = Ok 0 /\
       trace (world (main env args w)) =
         trace w ++ EvMkdir (arg_out_dir args)
           :: EvStart start end_ (Z.of_nat (length rows))
           :: evs ++ [EvDone (count is_row_ok evs) (count is_row_fail evs)] /\
       Z.of_nat (count is_row_ok evs + count is_row_fail evs) = end_ - start /\
       Forall (fun ev => match ev with
                         | EvStderr _ | EvStart _ _ _ | EvDone _ _ => False
                         | _ => True
                         end) evs /\
       world (main env args w) =
         log (EvDone (count is_row_ok evs) (count is_row_fail evs))
           (fold_left (row_step env args rows) (seqZ start (end_ - start))
              (log (EvStart start end_ (Z.of_nat (length rows)))
                 (world (ensure_dir (arg_out_dir args) w)))) /\
       Forall2 (fun i ev =>
                  exists row res,
                    rows !! Z.to_nat i = Some row /\
                    (forall w', value (process_url env i row (Some (arg_column args))
                                         (arg_out_dir args) (arg_overwrite args) w')
                                = Ok res) /\
                    ev = report_line i res)
         (seqZ start (end_ - start)) (List.filter is_report evs)).
Proof.
  intros Hcsv rows start end_.
  pose proof (resolve_end_le (arg_end args) (Z.of_nat (length rows))) as Hle.
  fold end_ in Hle.
  split; [| split].
  - intros Hnil. rewrite Hnil in Hle. cbn in Hle. lia.
  - intros Hge. unfold main. rewrite Hcsv.
    erewrite bind_ok by reflexivity.
    fold rows. fold end_. fold start.
    destruct (Z.geb_spec start end_); [| lia].
    cbn. rewrite <- app_assoc. repeat split; reflexivity.
  - intros Hlt. unfold main. rewrite Hcsv.
    erewrite bind_ok by reflexivity.
    fold rows. fold end_. fold start.
    destruct (Z.geb_spec start end_); [lia |].
    erewrite bind_ok by reflexivity.
    assert (Hrange : Forall (fun i => 0 <= i < Z.of_nat (length rows))
                       (seqZ start (end_ - start))).
    { apply Forall_lookup. intros k i Hk. apply lookup_seqZ in Hk. lia. }
    destruct (run_rows_run env args rows _ Hrange 0%nat 0%nat
                (log (EvStart start end_ (Z.of_nat (length rows)))
                   (world (ensure_dir (arg_out_dir args) w))))
      as (s' & f' & w' & evs & Hrun & Ht & Hs & Hf & Hcount & Hquiet).
    destruct (run_rows_lines env args rows _ Hrange 0%nat 0%nat
                (log (EvStart start end_ (Z.of_nat (length rows)))
                   (world (ensure_dir (arg_out_dir args) w))))
      as (counts & evs2 & Hrun2 & Ht2 & Hlines).
    assert (Hw' : w' = fold_left (row_step env args rows) (seqZ start (end_ - start))
                         (log (EvStart start end_ (Z.of_nat (length rows)))
                            (world (ensure_dir (arg_out_dir args) w)))).
    { rewrite Hrun in Hrun2. exact (f_equal snd Hrun2). }
    rewrite <- Hw', Ht in Ht2. apply app_inv_head in Ht2. subst evs2.
    erewrite bind_ok by exact Hrun.
    erewrite bind_ok by reflexivity.
    unfold ret. cbn [value world fst snd].
    subst s' f'. cbn [Nat.add].
    exists evs.
    split; [reflexivity |].
    split.
    { cbn [log trace]. rewrite Ht. cbn [log trace]. rewrite ensure_dir_trace.
      rewrite <- !app_assoc. reflexivity. }
    split; [rewrite Hcount, length_seqZ; lia |].
    split; [exact Hquiet |].
    split; [now rewrite Hw' | exact Hlines].
Qed.

(** C9, witness: an input with two URLs, once with the whole range and once
    with a start beyond its end. *)
Lemma main_exit_status_witness :
  let env := Scenario.with_csv
               (fun p => if String.eqb p "rows.csv"
                         then Some [Scenario.case_a_row; Scenario.blank_row;
                                    [("tvc", Some "https://x/v.mp4")]]
                         else None)
               (Scenario.serving "https://x/a.jpg" "image/jpeg" ["JFIF"]) in
  let args start := {| arg_input := "rows.csv"; arg_column := "tvc";
                       arg_out_dir := "batch_outputs"; arg_start := start;
                       arg_end := None; arg_overwrite := false |} in
  value (main env (args 0) empty_world) = Ok 0 /\
  value (main env (args 2) empty_world) = Ok 1.
Proof.
  intros env args. split.
  - destruct (proj2 (proj2 (main_exit_status env (args 0) empty_world _ eq_refl)))
      as (evs & H & _); [reflexivity | exact H].
  - refine (proj1 (proj1 (proj2 (main_exit_status env (args 2) empty_world _ eq_refl)) _)).
    vm_compute. discriminate.
Defined.

(** C10 (amended). When the download of a row returns a non-empty error,
    [process_url] returns [download_error: <error>] with zero frames, and the
    only files it has opened for writing are [url.txt] and [metadata.txt]:
    [media_type.txt] and the embedding are not written. Without [overwrite]
    they are exactly as before the call; in every case they are absent
    afterwards if they were absent before. *)
Theorem download_error_stops_before_media_type (env : Env) (index : Z) (row : Row)
    (col : option string) (out_root : string) (overwrite : bool) (w w1 : World)
    (mt e : string) :
  truthy (row_url col row) = true ->
  let url := row_url col row in
  let media := media_type_path_of out_root index in
  let embed := first_embed_path_of out_root index in
  value (download_file env url (tmp_path_of (tmpdir env) url) w1) = Ok (mt, Some e) ->
  truthy e = true ->
  let r := process_url env index row col out_root overwrite w in
  value r = Ok (job_id_of index, 0%nat, Some ("download_error: " +:+ e)) /\
  (exists before heads,
     trace (world r) =
       trace w ++ before
         ++ [EvOpen (url_txt_path_of out_root index);
             EvOpen (metadata_txt_path_of out_root index);
             EvGet url] ++ heads /\
     Forall (fun ev => is_open ev = false) before /\
     Forall (fun ev => ev = EvHead url) heads) /\
  (overwrite = false ->
     files (world r) !! media = files w !! media /\
     files (world r) !! embed = files w !! embed) /\
  (files w !! media = None -> files (world r) !! media = None) /\
  (files w !! embed = None -> files (world r) !! embed = None).
Proof.
  intros Hurl url media embed Hdl He r.
  rewrite download_file_value in Hdl. injection Hdl as Hdl.
  destruct (artifact_paths_neq out_root index) as (N1 & N2 & N3 & N4 & N5 & N6).
  destruct (process_url_run env index row col out_root overwrite w Hurl)
    as (res & w' & heads & rest & Hrun & _ & _ & _ & _ & Ht & Hheads & _ & _ & _ & Hcase).
  fold url in Hcase, Ht, Hheads. cbv zeta in Hcase. rewrite Hdl in Hcase.
  cbn [fst snd or_empty from_option id] in Hcase. rewrite He in Hcase.
  destruct Hcase as (-> & Hfiles & ->).
  subst r. rewrite Hrun. cbn [value world fst snd].
  destruct (cleaned_trace env out_root index overwrite w)
    as (removals & Hc & Hrem & _ & _).
  assert (Hmedia : files w' !! media = files (cleaned env out_root index overwrite w) !! media).
  { rewrite Hfiles, provenanced_files.
    subst media. now rewrite !bool_decide_eq_false_2 by congruence. }
  assert (Hembed : files w' !! embed = files (cleaned env out_root index overwrite w) !! embed).
  { rewrite Hfiles, provenanced_files.
    subst embed. now rewrite !bool_decide_eq_false_2 by congruence. }
  rewrite Hmedia, Hembed, !cleaned_files.
  split; [reflexivity |]. split; [| split; [| split]].
  - exists (EvMkdir (job_dir_of out_root index) :: removals), heads.
    split; [| split; [| exact Hheads]].
    + rewrite Ht, provenanced_trace, Hc, app_nil_r, <- !app_assoc. reflexivity.
    + constructor; [reflexivity |].
      eapply Forall_impl; [exact Hrem |]. intros ev (p & -> & _). reflexivity.
  - intros ->. split; reflexivity.
  - intros Hnone. destruct (_ && _)%bool; [| exact Hnone].
    destruct (remove_error env media); [exact Hnone | reflexivity].
  - intros Hnone. destruct (_ && _)%bool; [| exact Hnone].
    destruct (remove_error env embed); [exact Hnone | reflexivity].
Qed.

(** C10, witness: a fresh job directory and no network; only [url.txt] and
    [metadata.txt] are left. *)
Lemma download_error_stops_before_media_type_witness :
  let r := process_url Scenario.offline 3 Scenario.case_a_row (Some "tvc")
             "batch_outputs" false empty_world in
  value r = Ok ("url_0003", 0%nat,
                Some "download_error: GET failed: network is unreachable") /\
  files (world r) !! "batch_outputs/url_0003/media_type.txt" = None /\
  files (world r) !! "batch_outputs/url_0003/first_frame.npy" = None.
Proof.
  intros r.
  destruct (download_error_stops_before_media_type Scenario.offline 3
              Scenario.case_a_row (Some "tvc") "batch_outputs" false empty_world
              empty_world "image" "GET failed: network is unreachable"
              eq_refl eq_refl eq_refl)
    as (Hres & _ & _ & Hmedia & Hembed).
  split; [exact Hres |]. split; [exact (Hmedia eq_refl) | exact (Hembed eq_refl)].
Defined.

(** C10, counterexample: the job is complete from an earlier run and is
    processed again without [overwrite] while the network is down; the
    download fails, and the job directory still contains [media_type.txt] and
    the embedding artifact. *)
Lemma failed_download_keeps_earlier_artifacts :
  let r := process_url Scenario.offline 3 Scenario.case_a_row (Some "tvc")
             "batch_outputs" false Scenario.complete_job in
  value (download_file Scenario.offline "https://x/a.jpg"
           (tmp_path_of (tmpdir Scenario.offline) "https://x/a.jpg") empty_world)
    = Ok ("image", Some "GET failed: network is unreachable") /\
  value r = Ok ("url_0003", 0%nat,
                Some "download_error: GET failed: network is unreachable") /\
  files (world r) !! "batch_outputs/url_0003/media_type.txt" = Some "video" /\
  files (world r) !! "batch_outputs/url_0003/first_frame.npy" = Some "CLIP<PNG<old>>".
Proof.
  intros r. repeat split; vm_compute; reflexivity.
Qed.

(** ** Further properties *)

(** *** White space and character classes *)

Lemma lstrip_head (s : string) (c : ascii) :
  head_char (lstrip s) = Some c -> isspace c = false.
Proof.
  induction s as [|a s IH]; cbn [lstrip]; [discriminate |].
  destruct (isspace a) eqn:Ha; [exact IH |].
  cbn. intros [= <-]. exact Ha.
Qed.

Lemma rstrip_last (s : string) (c : ascii) :
  last_char (rstrip s) = Some c -> isspace c = false.
Proof.
  induction s as [|a s IH]; cbn [rstrip]; [discriminate |].
  destruct (rstrip s) as [|b r] eqn:Hr.
  - destruct (isspace a) eqn:Ha; cbn; [discriminate |].
    intros [= <-]. exact Ha.
  - change (last_char (String a (String b r))) with (last_char (String b r)).
    exact IH.
Qed.

Lemma rstrip_head (s : string) (c : ascii) :
  head_char (rstrip s) = Some c -> head_char s = Some c.
Proof.
  destruct s as [|a s]; cbn [rstrip]; [discriminate |].
  destruct (rstrip s); [destruct (isspace a); [discriminate |] |]; cbn; tauto.
Qed.

Lemma strip_trimmed (s : string) : trimmed (strip s).
Proof.
  unfold strip. split.
  - intros c H. apply rstrip_head in H. now apply lstrip_head in H.
  - apply rstrip_last.
Qed.

Lemma lstrip_fixed (s : string) :
  (forall c, head_char s = Some c -> isspace c = false) -> lstrip s = s.
Proof.
  destruct s as [|a s]; cbn; [reflexivity |].
  intros H. now rewrite (H a eq_refl).
Qed.

Lemma rstrip_fixed (s : string) :
  (forall c, last_char s = Some c -> isspace c = false) -> rstrip s = s.
Proof.
  induction s as [|a s IH]; [reflexivity |].
  intros H. cbn [rstrip]. destruct s as [|b r].
  - cbn. now rewrite (H a eq_refl).
  - rewrite IH by exact H. reflexivity.
Qed.

Lemma strip_fixed (s : string) : trimmed s -> strip s = s.
Proof.
  intros [Hh Hl]. unfold strip. rewrite (lstrip_fixed s Hh). now apply rstrip_fixed.
Qed.

Lemma all_chars_lstrip (P : ascii -> bool) (s : string) :
  all_chars P s = true -> all_chars P (lstrip s) = true.
Proof.
  induction s as [|a s IH]; cbn [lstrip all_chars]; [reflexivity |].
  intros H. apply andb_prop in H as [Ha Hs].
  destruct (isspace a); [now apply IH |].
  cbn. now rewrite Ha, Hs.
Qed.

Lemma all_chars_rstrip (P : ascii -> bool) (s : string) :
  all_chars P s = true -> all_chars P (rstrip s) = true.
Proof.
  induction s as [|a s IH]; cbn [rstrip all_chars]; [reflexivity |].
  intros H. apply andb_prop in H as [Ha Hs]. specialize (IH Hs).
  destruct (rstrip s) as [|b r].
  - destruct (isspace a); cbn; [reflexivity | now rewrite Ha].
  - cbn [all_chars] in *. now rewrite Ha, IH.
Qed.

Lemma all_chars_strip (P : ascii -> bool) (s : string) :
  all_chars P s = true -> all_chars P (strip s) = true.
Proof. intros H. unfold strip. now apply all_chars_rstrip, all_chars_lstrip. Qed.

Lemma all_chars_append (P : ascii -> bool) (a b : string) :
  all_chars P (a +:+ b) = (all_chars P a && all_chars P b)%bool.
Proof.
  induction a as [|x a IH]; [reflexivity |].
  rewrite append_cons. cbn [all_chars]. now rewrite IH, andb_assoc.
Qed.

Lemma all_chars_excludes (P : ascii -> bool) (s : string) (c : ascii) :
  all_chars P s = true -> P c = false -> contains (String c EmptyString) s = false.
Proof.
  intros Hs Hc. induction s as [|a s IH]; [reflexivity |].
  cbn [all_chars] in Hs. apply andb_prop in Hs as [Ha Hs].
  cbn [contains startswith].
  destruct (Ascii.eqb_spec c a) as [-> | _]; [congruence | now apply IH].
Qed.

Lemma slug_chars_ok (s : string) : all_chars slug_char_ok (slug_chars s) = true.
Proof.
  induction s as [|a s IH]; [reflexivity |].
  cbn [slug_chars all_chars]. rewrite IH, andb_true_r.
  fold (slug_char_ok a). destruct (slug_char_ok a) eqn:Ha; [exact Ha | reflexivity].
Qed.

Lemma slug_chars_fixed (s : string) :
  all_chars slug_char_ok s = true -> slug_chars s = s.
Proof.
  induction s as [|a s IH]; [reflexivity |].
  cbn [slug_chars all_chars]. intros H. apply andb_prop in H as [Ha Hs].
  fold (slug_char_ok a). now rewrite Ha, IH.
Qed.

(** The slug is never empty, has no surrounding white space and is made of
    letters, digits and the characters of [" .-_()[]{}"] only. *)
Lemma safe_slug_clean (text : string) :
  truthy (safe_slug text) = true /\
  trimmed (safe_slug text) /\
  all_chars slug_char_ok (safe_slug text) = true.
Proof.
  unfold safe_slug. cbv zeta.
  destruct (truthy (strip (slug_chars (strip text)))) eqn:Hslug.
  - split; [exact Hslug |]. split; [apply strip_trimmed |].
    apply all_chars_strip, slug_chars_ok.
  - split; [reflexivity |]. split; [| reflexivity].
    split; intros c [= <-]; reflexivity.
Qed.

Lemma startswith_contains (c : ascii) (s : string) :
  contains (String c EmptyString) s = false ->
  startswith (String c EmptyString) s = false.
Proof.
  destruct s as [|a s]; [reflexivity |].
  cbn [contains]. destruct (startswith (String c EmptyString) (String a s));
    [discriminate | reflexivity].
Qed.

(** X1. Whatever the text, [safe_slug] returns a non-empty name without
    surrounding white space, made only of letters, digits and the characters
    of [" .-_()[]{}"]; in particular the name contains no slash. *)
Theorem safe_slug_is_a_plain_name (text : string) :
  safe_slug text <> "" /\
  trimmed (safe_slug text) /\
  all_chars slug_char_ok (safe_slug text) = true /\
  contains "/" (safe_slug text) = false.
Proof.
  destruct (safe_slug_clean text) as (Hne & Htrim & Hok).
  split; [| split; [exact Htrim | split; [exact Hok |]]].
  - intros E. rewrite E in Hne. discriminate Hne.
  - apply (all_chars_excludes slug_char_ok); [exact Hok | reflexivity].
Qed.

(** X2. A non-empty name without surrounding white space that uses only the
    allowed characters is returned unchanged by [safe_slug]; hence applying
    [safe_slug] twice is the same as applying it once. *)
Theorem safe_slug_keeps_plain_names (text : string) :
  (truthy text = true -> trimmed text -> all_chars slug_char_ok text = true ->
   safe_slug text = text) /\
  safe_slug (safe_slug text) = safe_slug text.
Proof.
  assert (Hfix : forall s, truthy s = true -> trimmed s ->
                           all_chars slug_char_ok s = true -> safe_slug s = s).
  { intros s Hne Htrim Hok. unfold safe_slug. cbv zeta.
    rewrite (strip_fixed s Htrim), (slug_chars_fixed s Hok), (strip_fixed s Htrim).
    now rewrite Hne. }
  split; [apply Hfix |].
  destruct (safe_slug_clean text) as (Hne & Htrim & Hok).
  now apply Hfix.
Qed.

(** X3. The download destination is always the temporary directory joined
    with the slug of the last URL segment. The slug is never empty, so the
    fallback name [media<ext>] of line 196, and with it the extension chosen
    in lines 186-194, is never used; and the slug holds no slash, so the
    join adds exactly one path segment to the temporary directory. That
    segment can be [.] or [..] (see [tmp_path_of_dot_segments]): the
    statement does not say that the destination is a file inside the
    temporary directory. *)
Theorem tmp_path_is_slug_in_tdir (tdir url : string) :
  exists name,
    name = safe_slug (basename url) /\
    tmp_path_of tdir url = dir_prefix tdir +:+ name /\
    name <> "" /\ contains "/" name = false.
Proof.
  destruct (safe_slug_clean (basename url)) as (Hne & Htrim & Hok).
  assert (Hslash : contains "/" (safe_slug (basename url)) = false).
  { apply (all_chars_excludes slug_char_ok); [exact Hok | reflexivity]. }
  exists (safe_slug (basename url)). split; [reflexivity |].
  split; [| split; [| exact Hslash]].
  - unfold tmp_path_of. cbv zeta. rewrite Hne.
    apply path_join_prefix. now apply startswith_contains.
  - intros E. rewrite E in Hne. discriminate Hne.
Qed.

(** For a URL that ends in [/.] or [/..] the destination is the temporary
    directory itself or its parent. *)
Example tmp_path_of_dot_segments :
  tmp_path_of "/tmp/tmpk3x9" "https://x/." = "/tmp/tmpk3x9/." /\
  tmp_path_of "/tmp/tmpk3x9" "https://x/.." = "/tmp/tmpk3x9/..".
Proof. split; reflexivity. Qed.

(** *** Job ids *)

Lemma decode_digits_zeros (k : nat) (s : string) :
  decode_digits (zeros k +:+ s) = decode_digits s.
Proof.
  induction k as [|k IH]; [reflexivity |].
  cbn [zeros]. rewrite append_cons. unfold decode_digits in *.
  cbn [NilEmpty.uint_of_string]. rewrite <- IH.
  destruct (NilEmpty.uint_of_string (zeros k +:+ s)) as [d |]; reflexivity.
Qed.

Lemma decode_digits_of (n : N) : decode_digits (digits n) = Some n.
Proof.
  unfold decode_digits, digits, NilZero.string_of_uint.
  pose proof (DecimalN.Unsigned.of_to n) as Hn.
  destruct (N.to_uint n) eqn:Hd; try (rewrite NilEmpty.usu; cbn [option_map]; now f_equal).
  cbn in Hn. subst n. reflexivity.
Qed.

Lemma read_04d_of_digits (s : string) (n : N) :
  decode_digits s = Some n -> s <> "" -> read_04d s = Some (Z.of_N n).
Proof.
  intros Hs Hne. destruct s as [|c r]; [contradiction |].
  unfold read_04d. destruct (Ascii.eqb_spec c "-") as [-> | _].
  - unfold decode_digits in Hs. cbn in Hs.
    destruct (NilEmpty.uint_of_string r); discriminate Hs.
  - now rewrite Hs.
Qed.

Lemma digits_nonempty (n : N) : digits n <> "".
Proof.
  unfold digits, NilZero.string_of_uint.
  pose proof (DecimalN.Unsigned.of_to n) as Hn.
  destruct (N.to_uint n) eqn:Hd; cbn; try discriminate.
Qed.

Lemma append_nonempty_r (a b : string) : b <> "" -> a +:+ b <> "".
Proof.
  intros Hb. destruct a as [|x a]; [exact Hb | rewrite append_cons; discriminate].
Qed.

(** The ordinal can be read back from its four-digit form. *)
Lemma read_04d_format (i : Z) : read_04d (format_04d i) = Some i.
Proof.
  destruct i as [|p|p]; unfold format_04d.
  - reflexivity.
  - cbv zeta. change (Z.to_N (Z.pos p)) with (N.pos p).
    rewrite (read_04d_of_digits _ (N.pos p)).
    + reflexivity.
    + rewrite decode_digits_zeros. apply decode_digits_of.
    + apply append_nonempty_r, digits_nonempty.
  - cbv zeta. rewrite append_cons, append_nil_l. unfold read_04d.
    rewrite Ascii.eqb_refl, decode_digits_zeros, decode_digits_of. reflexivity.
Qed.

(** X4. Distinct row ordinals get distinct job ids: the ordinal can be read
    back from [url_NNNN], also beyond 9999 where the id grows longer. *)
Theorem job_id_of_injective (i j : Z) : job_id_of i = job_id_of j -> i = j.
Proof.
  unfold job_id_of. intros H. apply append_cancel_l in H.
  assert (E : read_04d (format_04d i) = read_04d (format_04d j)) by now rewrite H.
  rewrite !read_04d_format in E. now injection E.
Qed.

(** X4, witness: the job id [url_0012] belongs to ordinal 12 only. *)
Lemma job_id_of_injective_witness :
  job_id_of (5 + 7) = "url_0012" /\ (5 + 7 = 12)%Z.
Proof.
  split; [reflexivity |]. apply (job_id_of_injective (5 + 7) 12). reflexivity.
Defined.

(** *** Jobs do not share paths *)

Lemma all_chars_impl (P Q : ascii -> bool) (s : string) :
  (forall c, P c = true -> Q c = true) -> all_chars P s = true -> all_chars Q s = true.
Proof.
  intros HPQ. induction s as [|a s IH]; [reflexivity |].
  cbn [all_chars]. intros H. apply andb_prop in H as [Ha Hs].
  now rewrite (HPQ a Ha), IH.
Qed.

Lemma all_chars_zeros (k : nat) : all_chars is_numeral_char (zeros k) = true.
Proof. induction k as [|k IH]; [reflexivity | exact IH]. Qed.

Lemma all_chars_uint (d : Decimal.uint) :
  all_chars is_numeral_char (NilEmpty.string_of_uint d) = true.
Proof. induction d; cbn [NilEmpty.string_of_uint all_chars]; auto. Qed.

Lemma all_chars_digits (n : N) : all_chars is_numeral_char (digits n) = true.
Proof.
  unfold digits, NilZero.string_of_uint.
  destruct (N.to_uint n) eqn:Hd; try reflexivity; rewrite <- Hd at 1;
    try apply all_chars_uint.
  all: rewrite Hd; apply (all_chars_uint _).
Qed.

Lemma all_chars_format_04d (i : Z) : all_chars is_numeral_char (format_04d i) = true.
Proof.
  destruct i as [|p|p]; unfold format_04d; cbv zeta;
    rewrite ?all_chars_append, ?all_chars_zeros, ?all_chars_digits; reflexivity.
Qed.

Lemma job_id_no_slash (i : Z) : all_chars no_slash (job_id_of i) = true.
Proof.
  unfold job_id_of. rewrite all_chars_append. apply andb_true_intro. split; [reflexivity |].
  apply (all_chars_impl is_numeral_char); [| apply all_chars_format_04d].
  intros c Hc. unfold no_slash. destruct (Ascii.eqb_spec c "/") as [-> | _];
    [discriminate Hc | reflexivity].
Qed.

Lemma endswith_char_append (c : ascii) (a b : string) :
  b <> "" -> endswith_char c (a +:+ b) = endswith_char c b.
Proof.
  intros Hb. induction a as [|x a IH]; [reflexivity |].
  rewrite append_cons. cbn [endswith_char].
  destruct (a +:+ b) eqn:E; [| exact IH].
  exfalso. revert E. now apply append_nonempty_r.
Qed.

Lemma endswith_char_excluded (P : ascii -> bool) (c : ascii) (s : string) :
  all_chars P s = true -> P c = false -> endswith_char c s = false.
Proof.
  intros Hs Hc. induction s as [|a s IH]; [reflexivity |].
  cbn [all_chars] in Hs. apply andb_prop in Hs as [Ha Hs].
  cbn [endswith_char]. destruct s as [|b r]; [| now apply IH].
  destruct (Ascii.eqb_spec a c) as [-> | _]; [congruence | reflexivity].
Qed.

Lemma before_append (c : ascii) (a rest : string) :
  all_chars (fun x => negb (Ascii.eqb x c)) a = true ->
  before c (a +:+ String c rest) = a.
Proof.
  induction a as [|x a IH]; intros H.
  - rewrite append_nil_l. cbn [before]. now rewrite Ascii.eqb_refl.
  - cbn [all_chars] in H. apply andb_prop in H as [Hx Ha].
    rewrite append_cons. cbn [before].
    apply negb_true_iff in Hx. rewrite Hx. now rewrite IH.
Qed.

(** Every artifact path of a job is the output root, the job id, a slash and
    the artifact's name. *)
Lemma artifact_path_shape (out_root : string) (index : Z) (p : string) :
  p ∈ artifact_paths out_root index ->
  exists name, p = dir_prefix out_root +:+ job_id_of index +:+ String "/" name.
Proof.
  intros Hp. apply elem_of_artifact_paths in Hp.
  assert (Hdir : job_dir_of out_root index = dir_prefix out_root +:+ job_id_of index).
  { unfold job_dir_of. apply path_join_prefix. reflexivity. }
  assert (Hne : job_id_of index <> "") by (unfold job_id_of; discriminate).
  assert (Hprefix : dir_prefix (job_dir_of out_root index)
                    = job_dir_of out_root index +:+ "/").
  { unfold dir_prefix.
    assert (Ht : truthy (job_dir_of out_root index) = true).
    { rewrite Hdir. destruct (dir_prefix out_root +:+ job_id_of index) eqn:E;
        [| reflexivity].
      exfalso. revert E. now apply append_nonempty_r. }
    rewrite Ht. cbn [negb].
    rewrite Hdir, endswith_char_append by exact Hne.
    now rewrite (endswith_char_excluded no_slash "/" _ (job_id_no_slash index) eq_refl). }
  assert (Hjoin : forall name, startswith "/" name = false ->
            path_join (job_dir_of out_root index) name
            = dir_prefix out_root +:+ job_id_of index +:+ String "/" name).
  { intros name Hn. rewrite (path_join_prefix _ _ Hn), Hprefix, Hdir.
    rewrite !append_assoc_str. reflexivity. }
  unfold first_embed_path_of, url_txt_path_of, metadata_txt_path_of,
    media_type_path_of in Hp.
  destruct Hp as [-> | [-> | [-> | ->]]]; eexists; apply Hjoin; reflexivity.
Qed.

Lemma artifact_paths_disjoint (out_root : string) (i j : Z) (p : string) :
  p ∈ artifact_paths out_root i -> p ∈ artifact_paths out_root j -> i = j.
Proof.
  intros Hi Hj.
  apply artifact_path_shape in Hi as [a Ha]. apply artifact_path_shape in Hj as [b Hb].
  rewrite Ha in Hb. apply append_cancel_l in Hb.
  assert (E : before "/" (job_id_of i +:+ String "/" a)
              = before "/" (job_id_of j +:+ String "/" b)) by now rewrite Hb.
  rewrite !before_append in E by apply job_id_no_slash.
  unfold job_id_of in E. apply append_cancel_l in E.
  assert (R : read_04d (format_04d i) = read_04d (format_04d j)) by now rewrite E.
  rewrite !read_04d_format in R. now injection R.
Qed.

(** [process_url] changes no file other than the four artifacts of its job. *)
Lemma process_url_frame (env : Env) (index : Z) (row : Row) (col : option string)
    (out_root : string) (overwrite : bool) (w : World) (p : string) :
  p ∉ artifact_paths out_root index ->
  files (world (process_url env index row col out_root overwrite w)) !! p = files w !! p.
Proof.
  intros Hp.
  destruct (truthy (row_url col row)) eqn:Hurl.
  - destruct (process_url_run env index row col out_root overwrite w Hurl)
      as (res & w' & heads & rest & Hrun & _ & _ & _ & Hother & _).
    rewrite Hrun. cbn [world snd].
    rewrite elem_of_artifact_paths in Hp.
    rewrite Hother by (intros ->; apply Hp; tauto).
    rewrite provenanced_files.
    rewrite !bool_decide_eq_false_2 by (intros ->; apply Hp; tauto).
    rewrite cleaned_files.
    rewrite (bool_decide_eq_false_2 (p ∈ artifact_paths out_root index))
      by (rewrite elem_of_artifact_paths; exact Hp).
    now rewrite andb_false_r.
  - unfold process_url. now rewrite Hurl.
Qed.

(** X5. Jobs are independent: processing the row of ordinal [i] changes no
    file outside the four artifact paths of job [i], and these are not
    artifact paths of any other ordinal; so whatever happens to row [i], with
    or without [overwrite], the artifacts of every other job keep their
    bytes. *)
Theorem other_jobs_are_untouched (env : Env) (i j : Z) (row : Row)
    (col : option string) (out_root : string) (overwrite : bool) (w : World)
    (p : string) :
  i <> j ->
  p ∈ artifact_paths out_root j ->
  (p ∉ artifact_paths out_root i) /\
  files (world (process_url env i row col out_root overwrite w)) !! p = files w !! p.
Proof.
  intros Hij Hj.
  assert (Hi : p ∉ artifact_paths out_root i).
  { intros Hi. apply Hij. exact (artifact_paths_disjoint out_root i j p Hi Hj). }
  split; [exact Hi | now apply process_url_frame].
Qed.

(** X5, witness: overwriting job 4 while job 3 is complete. *)
Lemma other_jobs_are_untouched_witness :
  files (world (process_url Scenario.offline 4 Scenario.case_a_row (Some "tvc")
                  "batch_outputs" true Scenario.complete_job))
    !! "batch_outputs/url_0003/first_frame.npy" = Some "CLIP<PNG<old>>".
Proof.
  refine (proj2 (other_jobs_are_untouched Scenario.offline 4 3 Scenario.case_a_row
                   (Some "tvc") "batch_outputs" true Scenario.complete_job
                   "batch_outputs/url_0003/first_frame.npy" _ _)).
  - discriminate.
  - apply elem_of_artifact_paths. left. reflexivity.
Defined.

(** *** What a download stores *)

Lemma append_nil_r (a : string) : a +:+ "" = a.
Proof. induction a as [|x a IH]; [reflexivity | rewrite append_cons; now f_equal]. Qed.

Lemma truthy_false (s : string) : truthy s = false -> s = "".
Proof. destruct s; [reflexivity | discriminate]. Qed.

(** The chunk loop appends the chunks, in order, to the destination and
    touches nothing else. *)
Lemma write_chunks_content (path : string) (cs : list string) (w : World) :
  exists t,
    write_chunks path cs w = (Ok tt, set_temp (fun _ => t) w) /\
    (forall acc, temp w !! path = Some acc -> t !! path = Some (acc +:+ joined cs)) /\
    (forall p, p <> path -> t !! p = temp w !! p).
Proof.
  revert w. induction cs as [|c cs IH]; intros w.
  - exists (temp w). split; [destruct w; reflexivity |].
    split; [| reflexivity]. intros acc H. cbn. now rewrite append_nil_r.
  - cbn [write_chunks]. unfold bind. destruct (truthy c) eqn:Hc.
    + unfold temp_append, update.
      destruct (IH (set_temp (fun t => <[path:=default "" (t !! path) +:+ c]> t) w))
        as (t & Hrun & Hat & Hother).
      rewrite Hrun. exists t. split; [reflexivity |]. split.
      * intros acc Hacc. cbn [set_temp temp] in Hat.
        rewrite (Hat (acc +:+ c)).
        -- cbn [joined fold_right]. now rewrite append_assoc_str.
        -- rewrite Hacc. cbn. apply lookup_insert_eq.
      * intros p Hp. rewrite (Hother p Hp). cbn [set_temp temp].
        now rewrite lookup_insert_ne by congruence.
    + unfold ret. destruct (IH w) as (t & Hrun & Hat & Hother).
      rewrite Hrun. exists t. split; [reflexivity |]. split; [| exact Hother].
      intros acc Hacc. rewrite (Hat acc Hacc).
      apply truthy_false in Hc. subst c. reflexivity.
Qed.

Ltac step_chunks_content :=
  match goal with
  | |- context [write_chunks ?p ?cs ?w] =>
      let t := fresh "t" in
      let Hat := fresh "Hat" in
      let Hother := fresh "Hother" in
      destruct (write_chunks_content p cs w) as (t & -> & Hat & Hother)
  end.

(** X6. When the primary transport answers and the destination opens,
    [download_file] leaves in the destination exactly the chunks of the
    response, in order (empty chunks add nothing), also when the stream
    breaks off afterwards; it reports the break as the error, paired with the
    classifier's type, and otherwise the type of the Content-Type header or,
    failing that, of the classifier. No other temporary file, no persistent
    file and no directory is changed. *)
Theorem download_file_stores_the_stream (env : Env) (url dest : string) (w : World)
    (r : Response) :
  requests_get env url = Ok r ->
  open_error env dest = None ->
  let run := download_file env url dest w in
  value run =
    Ok (match stream_error (resp_body r) with
        | None => (default (classified env url)
                     (content_type_media (lower (resp_content_type r))), None)
        | Some e => (classified env url, Some e)
        end) /\
  temp (world run) !! dest = Some (joined (chunks (resp_body r))) /\
  (forall p, p <> dest -> temp (world run) !! p = temp w !! p) /\
  files (world run) = files w /\
  dirs (world run) = dirs w.
Proof.
  intros Hget Hopen run. subst run.
  unfold download_file, requests_get_checked, temp_open, stream_end.
  unfold try_except, bind, emit, update, ret, raise.
  rewrite Hget, Hopen.
  destruct (content_type_media (lower (resp_content_type r))) as [t |];
    destruct (stream_error (resp_body r)) as [es |];
    cbn -[detect_media_type write_chunks];
    repeat first [step_detect | step_chunks_content];
    cbn -[detect_media_type write_chunks];
    repeat first [step_detect | step_chunks_content];
    cbn in *;
    (split; [reflexivity |]);
    (split; [rewrite (Hat ""); [reflexivity | apply lookup_insert_eq] |]);
    (split; [| split; reflexivity]);
    intros p Hp; rewrite (Hother p Hp); now rewrite lookup_insert_ne by congruence.
Qed.

(** X6, witness: three chunks, the second one empty. *)
Lemma download_file_stores_the_stream_witness :
  let env := Scenario.serving "https://x/a.jpg" "image/jpeg" ["JF"; ""; "IF"] in
  temp (world (download_file env "https://x/a.jpg" "/tmp/tmpk3x9/a.jpg" empty_world))
    !! "/tmp/tmpk3x9/a.jpg" = Some "JFIF".
Proof.
  intros env.
  exact (proj1 (proj2 (download_file_stores_the_stream env "https://x/a.jpg"
                         "/tmp/tmpk3x9/a.jpg" empty_world _ eq_refl eq_refl))).
Defined.

(** *** Failure reasons *)

Lemma persist_and_embed_tagged (env : Env)
    (job mt media embed tmp frame : string) (w : World) :
  exists n err,
    value (persist_and_embed env job mt media embed tmp frame w) = Ok (job, n, err) /\
    tagged_result n err /\ err <> Some "no_url_in_row" /\
    (forall d, err <> Some ("download_error: " +:+ d)).
Proof.
  unfold persist_and_embed, extract_frame, extract_image, extract_video,
    embed_image_clip_to_npy, swallow, write_file.
  unfold try_except, bind, emit, update, get, ret, raise.
  destruct (open_error env media) as [em |] eqn:Hm;
    destruct (String.eqb mt "image");
    cbn;
    destruct (temp w !! tmp) as [bytes |]; cbn.
  all: repeat (step_oracle; cbn; rewrite ?lookup_insert_eq; cbn).
  all: eexists; eexists; (split; [reflexivity |]).
  all: (split; [constructor |]).
  all: split; [| intros d]; intros E; try discriminate E;
    rewrite ?append_cons, ?append_nil_l in E; discriminate E.
Qed.

(** X7. Every call of [process_url] returns the job id of its ordinal with
    either success and one frame, or one of the tagged failures:
    [no_url_in_row], [download_error: ...], [image_process_error: ...],
    [video_open_error], [read_first_frame_error], [first_frame_error: ...],
    each with zero frames, or [embed_error: ...] with one frame. The reason is
    [no_url_in_row] exactly when the row has no URL, and a [download_error]
    exactly when the download returned a non-empty error. *)
Theorem process_url_result_is_tagged (env : Env) (index : Z) (row : Row)
    (col : option string) (out_root : string) (overwrite : bool) (w : World) :
  exists n err,
    value (process_url env index row col out_root overwrite w)
      = Ok (job_id_of index, n, err) /\
    tagged_result n err /\
    (err = Some "no_url_in_row" <-> row_url col row = "") /\
    ((exists d, err = Some ("download_error: " +:+ d)) <->
     row_url col row <> "" /\
     exists mt e, value (download_file env (row_url col row)
                           (tmp_path_of (tmpdir env) (row_url col row)) w)
                  = Ok (mt, Some e) /\ e <> "").
Proof.
  destruct (truthy (row_url col row)) eqn:Hurl.
  - assert (Hne : row_url col row <> "").
    { intros E. rewrite E in Hurl. discriminate Hurl. }
    rewrite (process_url_phases _ _ _ _ _ _ _ Hurl), with_tempdir_run.
    cbn [value fst]. unfold fetch_and_embed. cbv zeta.
    rewrite download_file_value.
    set (w0 := set_temp (fun _ => ∅) (provenanced env out_root index overwrite col row w)).
    destruct (download_file_run env (row_url col row)
                (tmp_path_of (tmpdir env) (row_url col row)) w0) as (w1 & Hd & _).
    erewrite bind_ok by exact Hd.
    destruct (download_value env (row_url col row)
                (tmp_path_of (tmpdir env) (row_url col row))) as [mt err0].
    cbn [fst snd].
    destruct err0 as [e |]; [destruct e as [|c e] |]; cbn [or_empty from_option id truthy].
    + destruct (persist_and_embed_tagged env (job_id_of index) mt
                  (media_type_path_of out_root index) (first_embed_path_of out_root index)
                  (tmp_path_of (tmpdir env) (row_url col row))
                  (path_join (tmpdir env) "first_frame.png") w1)
        as (n & err & Hv & Htag & Hno & Hnd).
      exists n, err. unfold value in Hv. split; [exact Hv |]. split; [exact Htag |].
      split; [split; [intros E; now apply Hno in E | intros E; now apply Hne in E] |].
      split.
      * intros [d E]. now apply Hnd in E.
      * intros (_ & mt' & e' & E & He'). injection E as _ <-. now contradiction He'.
    + exists 0%nat, (Some ("download_error: " +:+ String c e)).
      split; [reflexivity |]. split; [constructor |].
      split; [split; [intros E; rewrite ?append_cons, ?append_nil_l in E; discriminate E
                     | intros E; now apply Hne in E] |].
      split; [intros _ | intros _; now eexists].
      split; [exact Hne |]. exists mt, (String c e). split; [reflexivity | discriminate].
    + destruct (persist_and_embed_tagged env (job_id_of index) mt
                  (media_type_path_of out_root index) (first_embed_path_of out_root index)
                  (tmp_path_of (tmpdir env) (row_url col row))
                  (path_join (tmpdir env) "first_frame.png") w1)
        as (n & err & Hv & Htag & Hno & Hnd).
      exists n, err. unfold value in Hv. split; [exact Hv |]. split; [exact Htag |].
      split; [split; [intros E; now apply Hno in E | intros E; now apply Hne in E] |].
      split.
      * intros [d E]. now apply Hnd in E.
      * intros (_ & mt' & e' & E & _). discriminate E.
  - assert (He : row_url col row = "") by now apply truthy_false.
    unfold process_url. rewrite Hurl. cbn [negb].
    exists 0%nat, (Some "no_url_in_row").
    split; [reflexivity |]. split; [constructor |].
    split; [tauto |].
    split.
    + intros [d E]. rewrite ?append_cons, ?append_nil_l in E. discriminate E.
    + intros [Hne _]. now apply Hne in He.
Qed.

(** *** The reports of a run *)

Lemma process_url_has_url_reason (env : Env) (index : Z) (row : Row)
    (col : option string) (out_root : string) (overwrite : bool) (w : World)
    (res : Result) :
  truthy (row_url col row) = true ->
  value (process_url env index row col out_root overwrite w) = Ok res ->
  snd res <> Some "no_url_in_row".
Proof.
  intros Hurl.
  rewrite (process_url_phases _ _ _ _ _ _ _ Hurl), with_tempdir_run.
  cbn [value fst]. unfold fetch_and_embed. cbv zeta.
  set (w0 := set_temp (fun _ => ∅) (provenanced env out_root index overwrite col row w)).
  destruct (download_file_run env (row_url col row)
              (tmp_path_of (tmpdir env) (row_url col row)) w0) as (w1 & Hd & _).
  erewrite bind_ok by exact Hd.
  destruct (download_value env (row_url col row)
              (tmp_path_of (tmpdir env) (row_url col row))) as [mt err0].
  cbn [fst snd].
  destruct (truthy (or_empty err0)).
  - intros [= <-]. cbn [snd]. intros E.
    rewrite ?append_cons, ?append_nil_l in E. discriminate E.
  - destruct (persist_and_embed_tagged env (job_id_of index) mt
                (media_type_path_of out_root index) (first_embed_path_of out_root index)
                (tmp_path_of (tmpdir env) (row_url col row))
                (path_join (tmpdir env) "first_frame.png") w1)
      as (n & err & Hv & _ & Hno & _).
    rewrite Hv. intros [= <-]. exact Hno.
Qed.

Lemma omap_silent (evs : list Event) :
  Forall (fun ev => is_report ev = false) evs -> omap reported evs = [].
Proof.
  induction 1 as [|ev evs Hev _ IH]; [reflexivity |].
  cbn. rewrite IH. destruct ev; try reflexivity; discriminate Hev.
Qed.

(** The loop reports every index it is given, in order, under the job id of
    the index; rows that have a URL are never reported as [no_url_in_row]. *)
Lemma run_rows_reports (env : Env) (args : Args) (rows : list Row) (indices : list Z) :
  Forall (fun i => 0 <= i < Z.of_nat (length rows)) indices ->
  Forall (fun row => truthy (row_url (Some (arg_column args)) row) = true) rows ->
  forall (successes failures : nat) (w : World),
  exists counts w' evs,
    run_rows env args rows indices successes failures w = (Ok counts, w') /\
    trace w' = trace w ++ evs /\
    omap reported evs = (fun i => (i, job_id_of i)) <$> indices /\
    Forall (fun ev => is_no_url_report ev = false) evs /\
    Forall (fun ev => match ev with
                      | EvStderr _ | EvStart _ _ _ | EvDone _ _ => False
                      | _ => True
                      end) evs.
Proof.
  intros Hrange Hrows. induction Hrange as [|i rest Hi _ IH]; intros s f w.
  - exists (s, f), w, []. cbn. rewrite app_nil_r. repeat split; constructor.
  - cbn [run_rows].
    destruct (rows !! Z.to_nat i) as [row |] eqn:Hrow.
    2:{ apply lookup_ge_None in Hrow. lia. }
    assert (Hurl : truthy (row_url (Some (arg_column args)) row) = true).
    { rewrite Forall_lookup in Hrows. exact (Hrows _ _ Hrow). }
    destruct (process_url_total env i row (Some (arg_column args)) (arg_out_dir args)
                (arg_overwrite args) w)
      as ([[job n] err] & w1 & evs1 & Hrun & Hjob & _ & Ht1 & Hsilent).
    pose proof (process_url_has_url_reason env i row (Some (arg_column args))
                  (arg_out_dir args) (arg_overwrite args) w (job, n, err) Hurl) as Hno.
    rewrite Hrun in Hno. specialize (Hno eq_refl).
    erewrite bind_ok by exact Hrun. cbn [fst snd] in *. subst job.
    assert (Hquiet1 : Forall (fun ev => match ev with
                      | EvStderr _ | EvStart _ _ _ | EvDone _ _ => False
                      | _ => True
                      end) evs1).
    { eapply Forall_impl; [exact Hsilent |].
      intros ev; destruct ev; cbn; intros; first [exact I | discriminate]. }
    assert (Hnone1 : Forall (fun ev => is_no_url_report ev = false) evs1).
    { eapply Forall_impl; [exact Hsilent |].
      intros ev; destruct ev; cbn; intros; first [reflexivity | discriminate]. }
    destruct (truthy (or_empty err)) eqn:Herr.
    + erewrite bind_ok by reflexivity.
      destruct (IH s (S f) (log (EvRowFail i (job_id_of i) (or_empty err)) w1))
        as (counts & w' & evs & Hrest & Ht & Hrep & Hnone & Hquiet).
      exists counts, w', (evs1 ++ EvRowFail i (job_id_of i) (or_empty err) :: evs).
      split; [exact Hrest |].
      split; [rewrite Ht; cbn [log trace]; rewrite Ht1, <- !app_assoc; reflexivity |].
      split; [rewrite omap_app, (omap_silent evs1 Hsilent); cbn; now rewrite Hrep |].
      split.
      * apply Forall_app. split; [exact Hnone1 |]. constructor; [| exact Hnone].
        cbn. destruct err as [e |]; [| reflexivity]. cbn.
        destruct (String.eqb_spec e "no_url_in_row") as [-> | _];
          [now contradiction Hno | reflexivity].
      * apply Forall_app. split; [exact Hquiet1 |]. constructor; [exact I | exact Hquiet].
    + erewrite bind_ok by reflexivity.
      destruct (IH (S s) f (log (EvRowOk i (job_id_of i) n) w1))
        as (counts & w' & evs & Hrest & Ht & Hrep & Hnone & Hquiet).
      exists counts, w', (evs1 ++ EvRowOk i (job_id_of i) n :: evs).
      split; [exact Hrest |].
      split; [rewrite Ht; cbn [log trace]; rewrite Ht1, <- !app_assoc; reflexivity |].
      split; [rewrite omap_app, (omap_silent evs1 Hsilent); cbn; now rewrite Hrep |].
      split.
      * apply Forall_app. split; [exact Hnone1 |]. constructor; [reflexivity | exact Hnone].
      * apply Forall_app. split; [exact Hquiet1 |]. constructor; [exact I | exact Hquiet].
Qed.

Lemma read_urls_have_urls (table : list Row) (col : option string) :
  Forall (fun row => truthy (row_url col row) = true) (read_urls table col).
Proof.
  apply Forall_forall. intros row Hrow.
  unfold read_urls in Hrow. rewrite list_elem_of_In, List.filter_In in Hrow.
  exact (proj2 Hrow).
Qed.

(** X8. Over a non-empty range, [main] prints one OK or FAIL line for every
    ordinal from [start] to [end - 1], in increasing order and under the job
    id [url_NNNN] of that ordinal, between the start line and the summary;
    and since the rows come from [read_urls], none of these lines reports
    [no_url_in_row]. *)
Theorem main_reports_each_ordinal_in_order (env : Env) (args : Args) (w : World)
    (table : list Row) :
  csv_rows env (arg_input args) = Some table ->
  let rows := read_urls table (Some (arg_column args)) in
  let start := Z.max 0 (arg_start args) in
  let end_ := resolve_end (arg_end args) (Z.of_nat (length rows)) in
  start < end_ ->
  exists evs ok failed,
    value (main env args w) = Ok 0 /\
    trace (world (main env args w)) =
      trace w ++ EvMkdir (arg_out_dir args)
        :: EvStart start end_ (Z.of_nat (length rows))
        :: evs ++ [EvDone ok failed] /\
    omap reported evs = (fun i => (i, job_id_of i)) <$> seqZ start (end_ - start) /\
    Forall (fun ev => is_no_url_report ev = false) evs /\
    Forall (fun ev => match ev with
                      | EvStderr _ | EvStart _ _ _ | EvDone _ _ => False
                      | _ => True
                      end) evs.
Proof.
  intros Hcsv rows start end_ Hlt.
  pose proof (resolve_end_le (arg_end args) (Z.of_nat (length rows))) as Hle.
  fold end_ in Hle.
  unfold main. rewrite Hcsv.
  erewrite bind_ok by reflexivity.
  fold rows. fold end_. fold start.
  destruct (Z.geb_spec start end_); [lia |].
  erewrite bind_ok by reflexivity.
  assert (Hrange : Forall (fun i => 0 <= i < Z.of_nat (length rows))
                     (seqZ start (end_ - start))).
  { apply Forall_lookup. intros k i Hk. apply lookup_seqZ in Hk. lia. }
  destruct (run_rows_reports env args rows _ Hrange
              (read_urls_have_urls table (Some (arg_column args))) 0%nat 0%nat
              (log (EvStart start end_ (Z.of_nat (length rows)))
                 (world (ensure_dir (arg_out_dir args) w))))
    as ([ok failed] & w' & evs & Hrun & Ht & Hrep & Hnone & Hquiet).
  erewrite bind_ok by exact Hrun.
  exists evs, ok, failed. cbn [fst snd]. cbn -[seqZ].
  rewrite Ht. cbn [log trace]. rewrite ensure_dir_trace.
  split; [reflexivity |].
  split; [rewrite <- !app_assoc; reflexivity |].
  split; [exact Hrep |]. split; [exact Hnone | exact Hquiet].
Qed.

(** X8, witness: three lines read, the blank one dropped, two rows reported. *)
Lemma main_reports_each_ordinal_in_order_witness :
  let env := Scenario.with_csv
               (fun p => if String.eqb p "rows.csv"
                         then Some [Scenario.case_a_row; Scenario.blank_row;
                                    [("tvc", Some "https://x/v.mp4")]]
                         else None)
               (Scenario.serving "https://x/a.jpg" "image/jpeg" ["JFIF"]) in
  let args := {| arg_input := "rows.csv"; arg_column := "tvc";
                 arg_out_dir := "batch_outputs"; arg_start := 0;
                 arg_end := None; arg_overwrite := false |} in
  exists evs,
    omap reported evs = [(0, "url_0000"); (1, "url_0001")] /\
    Forall (fun ev => is_no_url_report ev = false) evs.
Proof.
  intros env args.
  destruct (main_reports_each_ordinal_in_order env args empty_world _ eq_refl)
    as (evs & ok & failed & _ & _ & Hrep & Hnone & _); [reflexivity |].
  exists evs. split; [exact Hrep | exact Hnone].
Defined.

(** *** Files outside the range *)

Lemma run_rows_frame (env : Env) (args : Args) (rows : list Row) (p : string)
    (indices : list Z) :
  (forall i, i ∈ indices -> p ∉ artifact_paths (arg_out_dir args) i) ->
  forall (successes failures : nat) (w : World),
    files (world (run_rows env args rows indices successes failures w)) !! p
      = files w !! p.
Proof.
  induction indices as [|i rest IH]; intros Hp s f w; [reflexivity |].
  cbn [run_rows].
  destruct (rows !! Z.to_nat i) as [row |]; [| reflexivity].
  destruct (process_url_total env i row (Some (arg_column args)) (arg_out_dir args)
              (arg_overwrite args) w)
    as ([[job n] err] & w1 & evs1 & Hrun & _).
  pose proof (process_url_frame env i row (Some (arg_column args)) (arg_out_dir args)
                (arg_overwrite args) w p (Hp i ltac:(left))) as Hframe.
  rewrite Hrun in Hframe. cbn [world snd] in Hframe.
  erewrite bind_ok by exact Hrun.
  assert (Hrest : forall k, k ∈ rest -> p ∉ artifact_paths (arg_out_dir args) k).
  { intros k Hk. apply Hp. now right. }
  cbv beta iota.
  destruct (truthy (or_empty err)); erewrite bind_ok by reflexivity;
    rewrite (IH Hrest); cbn [log files]; exact Hframe.
Qed.

Lemma bind_keeps_files {A B} (m : M A) (k : A -> M B) (w : World) :
  (forall a w', files (world (k a w')) = files w') ->
  files (world (bind m k w)) = files (world (m w)).
Proof.
  intros Hk. unfold bind. destruct (m w) as [[a | e] w']; [apply Hk | reflexivity].
Qed.

(** X9. A run of [main] over the range from [start] to [end - 1] changes no
    file other than the four artifacts of the jobs of that range: the jobs
    of every ordinal outside the range, and every other file, keep their
    bytes, with or without [overwrite]. *)
Theorem main_touches_only_jobs_in_range (env : Env) (args : Args) (w : World)
    (table : list Row) (p : string) :
  csv_rows env (arg_input args) = Some table ->
  let rows := read_urls table (Some (arg_column args)) in
  let start := Z.max 0 (arg_start args) in
  let end_ := resolve_end (arg_end args) (Z.of_nat (length rows)) in
  (forall i, start <= i < end_ -> p ∉ artifact_paths (arg_out_dir args) i) ->
  files (world (main env args w)) !! p = files w !! p.
Proof.
  intros Hcsv rows start end_ Hp.
  unfold main. rewrite Hcsv.
  erewrite bind_ok by reflexivity.
  fold rows. fold end_. fold start.
  destruct (start >=? end_).
  - erewrite bind_ok by reflexivity. reflexivity.
  - erewrite bind_ok by reflexivity.
    rewrite bind_keeps_files by reflexivity.
    rewrite run_rows_frame.
    + reflexivity.
    + intros i Hi. apply elem_of_seqZ in Hi. apply Hp. lia.
Qed.

(** X9, witness: a run over rows 0 and 1 with [overwrite], beside the
    complete job of ordinal 3. *)
Lemma main_touches_only_jobs_in_range_witness :
  let env := Scenario.with_csv
               (fun p => if String.eqb p "rows.csv"
                         then Some [Scenario.case_a_row; Scenario.blank_row;
                                    [("tvc", Some "https://x/v.mp4")]]
                         else None)
               (Scenario.serving "https://x/a.jpg" "image/jpeg" ["JFIF"]) in
  let args := {| arg_input := "rows.csv"; arg_column := "tvc";
                 arg_out_dir := "batch_outputs"; arg_start := 0;
                 arg_end := None; arg_overwrite := true |} in
  files (world (main env args Scenario.complete_job))
    !! "batch_outputs/url_0003/first_frame.npy" = Some "CLIP<PNG<old>>".
Proof.
  intros env args.
  refine (main_touches_only_jobs_in_range env args Scenario.complete_job _
            "batch_outputs/url_0003/first_frame.npy" eq_refl _).
  intros i Hi. change (0 <= i < 2) in Hi.
  assert (Hcases : i = 0 \/ i = 1) by lia.
  rewrite elem_of_artifact_paths.
  destruct Hcases as [-> | ->]; intros [H | [H | [H | H]]]; discriminate H.
Defined.

(** *** Overwriting and starting afresh *)

(** X10. What [process_url] returns for a row does not depend on what is in
    the output directory: with [overwrite], on a row that has a URL, it
    returns what a run without [overwrite] in an empty store returns; and
    when none of the four removals is refused, each of the four artifacts is
    afterwards what that run in the empty store leaves, so nothing of the
    earlier job survives. *)
Theorem overwrite_run_equals_fresh_run (env : Env) (index : Z) (row : Row)
    (col : option string) (out_root : string) (w : World) :
  truthy (row_url col row) = true ->
  let fresh := process_url env index row col out_root false (canon ∅) in
  let again := process_url env index row col out_root true w in
  value again = value fresh /\
  ((forall p, p ∈ artifact_paths out_root index -> remove_error env p = None) ->
   forall p, p ∈ artifact_paths out_root index ->
     files (world again) !! p = files (world fresh) !! p).
Proof.
  intros Hurl fresh again. subst fresh again.
  rewrite !(process_url_phases _ _ _ _ _ _ _ Hurl), !with_tempdir_run.
  cbn [value world fst snd].
  set (body := fetch_and_embed env (row_url col row) (job_id_of index)
                 (media_type_path_of out_root index) (first_embed_path_of out_root index)
                 (tmpdir env)).
  pose proof (uniform_fetch_and_embed env (row_url col row) (job_id_of index)
                (media_type_path_of out_root index) (first_embed_path_of out_root index)
                (tmpdir env)) as Huni.
  fold body in Huni.
  rewrite (Huni (set_temp (fun _ => ∅)
                   (provenanced env out_root index true col row w))).
  rewrite (Huni (set_temp (fun _ => ∅)
                   (provenanced env out_root index false col row (canon ∅)))).
  cbn [set_temp temp fst snd value world overlay files].
  split; [reflexivity |].
  intros Hrem p Hp.
  rewrite !lookup_union. f_equal.
  rewrite !provenanced_files, !cleaned_files.
  rewrite (bool_decide_eq_true_2 _ Hp), (Hrem p Hp). cbn [andb canon files].
  rewrite lookup_empty.
  repeat case_bool_decide; destruct (open_error env p); reflexivity.
Qed.

(** X10, witness: the complete job 3 overwritten while the network is down. *)
Lemma overwrite_run_equals_fresh_run_witness :
  let again := process_url Scenario.offline 3 Scenario.case_a_row (Some "tvc")
                 "batch_outputs" true Scenario.complete_job in
  value again = Ok ("url_0003", 0%nat,
                    Some "download_error: GET failed: network is unreachable") /\
  files (world again) !! "batch_outputs/url_0003/first_frame.npy" = None.
Proof.
  intros again.
  destruct (overwrite_run_equals_fresh_run Scenario.offline 3 Scenario.case_a_row
              (Some "tvc") "batch_outputs" Scenario.complete_job eq_refl) as [Hv Hf].
  split; [exact Hv |].
  refine (Hf (fun p _ => eq_refl) "batch_outputs/url_0003/first_frame.npy" _).
  apply elem_of_artifact_paths. left. reflexivity.
Defined.

(** *** The content of [media_type.txt] *)

Lemma download_value_kind (env : Env) (url dest : string) :
  fst (download_value env url dest) = "image" \/
  fst (download_value env url dest) = "video".
Proof.
  pose proof (classified_kind env url) as Hc.
  unfold download_value.
  destruct (requests_get env url) as [r | e]; [| exact Hc].
  destruct (open_error env dest); [exact Hc |].
  destruct (stream_error (resp_body r)); [exact Hc |].
  cbn [fst].
  destruct (content_type_media (lower (resp_content_type r))) as [t |] eqn:Ht;
    [exact (content_type_media_kind _ _ Ht) | exact Hc].
Qed.

(** X11. Whatever the server answers, [download_file] returns [image] or
    [video] as the media type; and after [process_url], the job's
    [media_type.txt] either holds one of these two words or is the file that
    was there before the run. *)
Theorem media_type_is_image_or_video (env : Env) (index : Z) (row : Row)
    (col : option string) (out_root : string) (overwrite : bool) (w : World)
    (url dest : string) :
  (exists mt err, value (download_file env url dest w) = Ok (mt, err) /\
                  (mt = "image" \/ mt = "video")) /\
  (forall t,
     files (world (process_url env index row col out_root overwrite w))
       !! media_type_path_of out_root index = Some t ->
     t = "image" \/ t = "video" \/
     files w !! media_type_path_of out_root index = Some t).
Proof.
  split.
  - rewrite download_file_value.
    destruct (download_value env url dest) as [mt err] eqn:Hd.
    exists mt, err. split; [reflexivity |].
    pose proof (download_value_kind env url dest) as Hk. now rewrite Hd in Hk.
  - intros t.
    destruct (artifact_paths_neq out_root index) as (_ & _ & _ & _ & N5 & N6).
    assert (Hbefore : forall t',
              files (provenanced env out_root index overwrite col row w)
                !! media_type_path_of out_root index = Some t' ->
              files w !! media_type_path_of out_root index = Some t').
    { intros t'. rewrite provenanced_files.
      rewrite !bool_decide_eq_false_2 by congruence.
      rewrite cleaned_files.
      destruct (overwrite && _)%bool; [| tauto].
      destruct (remove_error env _); [tauto | discriminate]. }
    destruct (truthy (row_url col row)) eqn:Hurl.
    + destruct (process_url_run env index row col out_root overwrite w Hurl)
        as (res & w' & heads & rest & Hrun & _ & _ & _ & _ & _ & _ & _ & _ & _ & Hcase).
      rewrite Hrun. cbn [world snd]. cbv zeta in Hcase.
      match type of Hcase with context [if ?b then _ else _] => destruct b end.
      * destruct Hcase as (_ & -> & _). intros H. right. right. now apply Hbefore.
      * destruct Hcase as (-> & _).
        destruct (open_error env (media_type_path_of out_root index)).
        -- intros H. right. right. now apply Hbefore.
        -- intros [= <-].
           destruct (download_value_kind env (row_url col row)
                       (tmp_path_of (tmpdir env) (row_url col row))); tauto.
    + unfold process_url. rewrite Hurl. cbn. tauto.
Qed.

(** *** The network requests of a download *)


